(** * The in-memory document collection of [src/backend/database.py]

    A shallow embedding of the class [InMemoryCollection] and of the Python
    operations it relies on ([==], [<], [>], [in], [dict.get], [dict.update],
    item assignment, [list.append]), followed by the properties of the
    store's query and update language.

    Modelling conventions.
    - A Python value is a [value]: [None], a [bool], an [int], a [str], a
      [list] or a [dict] with string keys.  Floating-point numbers are not
      among them; the range clauses on numbers that may be floats are
      embedded apart ([fvalue], [range_clause]).  The characters of a
      [str] are the 256 of [ascii], ordered by their codes.
    - A Python [dict] is insertion ordered; it is an association list whose
      keys are pairwise distinct ([dict_wf]).  Assigning to a key that is
      present keeps its position, assigning to a new key appends.
    - An exception is a [Raise] result.  Operations that mutate the store
      are functions from the store to a result and the store left behind,
      so that what was written before an exception stays written.
    - [find_one] hands out a reference to a stored document and
      [update_one] mutates through it.  A reference is the position of the
      document in the iteration order of the backing store ([find_one_ref]);
      [find_one] reads the document at that position.  Stored documents,
      and the lists inside them, are taken to be distinct objects: no two
      positions of a store share one. *)

From Stdlib Require Import ZArith.
From Stdlib Require SpecFloat.
From stdpp Require Import base list strings.

Open Scope string_scope.
Set Warnings "-register-all".

(** ** Results and exceptions *)

Inductive exn := KeyError | TypeError | AttributeError.

Inductive result (A : Type) :=
| Ok (a : A)
| Raise (e : exn).
Arguments Ok {A} a.
Arguments Raise {A} e.

Definition rbind {A B} (r : result A) (k : A -> result B) : result B :=
  match r with
  | Ok a => k a
  | Raise e => Raise e
  end.

Definition rmap {A B} (f : A -> B) (r : result A) : result B :=
  rbind r (fun a => Ok (f a)).

Notation "x <~ c ;; k" := (rbind c (fun x => k))
  (at level 100, c at next level, right associativity).

(** A computation over a mutable state [S]: the state it leaves behind is
    returned also when it raises. *)
Definition M (S A : Type) : Type := S -> result A * S.

Definition mret {S A} (a : A) : M S A := fun s => (Ok a, s).
Definition mraise {S A} (e : exn) : M S A := fun s => (Raise e, s).
Definition mbind {S A B} (c : M S A) (k : A -> M S B) : M S B :=
  fun s => match c s with
           | (Ok a, s') => k a s'
           | (Raise e, s') => (Raise e, s')
           end.

Notation "c ;;; k" := (mbind c (fun _ => k))
  (at level 100, right associativity).

(** [for x in xs: body x] *)
Fixpoint mfor {S A} (xs : list A) (body : A -> M S unit) : M S unit :=
  match xs with
  | [] => mret tt
  | x :: rest => (body x ;;; mfor rest body)
  end.

(** ** Python values *)

Inductive value :=
| VNone
| VBool (b : bool)
| VInt (n : Z)
| VStr (s : string)
| VList (l : list value)
| VDict (d : list (string * value)).

(** A dictionary with string keys: documents, query descriptors, operator
    documents and update descriptors. *)
Abbreviation dict := (list (string * value)).

Fixpoint dict_get (d : dict) (k : string) : option value :=
  match d with
  | [] => None
  | (k', v) :: rest => if String.eqb k' k then Some v else dict_get rest k
  end.

(** [k in d] *)
Definition dict_contains (d : dict) (k : string) : bool :=
  match dict_get d k with Some _ => true | None => false end.

(** [d.get(k)], which is [None] for an absent key *)
Definition get (d : dict) (k : string) : value :=
  match dict_get d k with Some v => v | None => VNone end.

(** [d.get(k, dflt)] *)
Definition get_default (d : dict) (k : string) (dflt : value) : value :=
  match dict_get d k with Some v => v | None => dflt end.

(** [d[k] = v] *)
Fixpoint dict_set (d : dict) (k : string) (v : value) : dict :=
  match d with
  | [] => [(k, v)]
  | (k', v') :: rest =>
      if String.eqb k' k then (k', v) :: rest else (k', v') :: dict_set rest k v
  end.

(** [d.update(m)] for a dictionary [m] *)
Definition dict_update (d m : dict) : dict :=
  fold_left (fun acc kv => dict_set acc (fst kv) (snd kv)) m d.

Definition dict_wf (d : dict) : Prop := NoDup (fst <$> d).

(** The numeric value of a [bool] or an [int] ([True == 1]). *)
Definition num (v : value) : option Z :=
  match v with
  | VBool b => Some (Z.b2z b)
  | VInt n => Some n
  | _ => None
  end.

(** [v == w]; it never raises on these values. *)
Fixpoint py_eq (v w : value) : bool :=
  match v, w with
  | VNone, VNone => true
  | VBool a, VBool b => Bool.eqb a b
  | VBool a, VInt n => Z.eqb (Z.b2z a) n
  | VInt m, VBool b => Z.eqb m (Z.b2z b)
  | VInt m, VInt n => Z.eqb m n
  | VStr s, VStr t => String.eqb s t
  | VList a, VList b =>
      (fix go (a b : list value) : bool :=
         match a, b with
         | [], [] => true
         | x :: a', y :: b' => py_eq x y && go a' b'
         | _, _ => false
         end) a b
  | VDict a, VDict b =>
      Nat.eqb (length a) (length b) &&
      (fix go (a : list (string * value)) : bool :=
         match a with
         | [] => true
         | (k, x) :: a' =>
             match dict_get b k with
             | Some y => py_eq x y
             | None => false
             end && go a'
         end) a
  | _, _ => false
  end.

(** The four ordering operators. *)
Inductive cmpop := Lt | Le | Gt | Ge.

Definition cmp_holds (op : cmpop) (c : comparison) : bool :=
  match op, c with
  | Lt, Datatypes.Lt => true
  | Le, (Datatypes.Lt | Datatypes.Eq) => true
  | Gt, Datatypes.Gt => true
  | Ge, (Datatypes.Gt | Datatypes.Eq) => true
  | _, _ => false
  end.

(** [v op w]: numbers by value, strings lexicographically by character
    code, lists lexicographically (the first pair of unequal elements
    decides, else the lengths do); every other pairing is a [TypeError]. *)
Fixpoint py_cmp (op : cmpop) (v w : value) : result bool :=
  match v, w with
  | VStr s, VStr t => Ok (cmp_holds op (String.compare s t))
  | VList a, VList b =>
      (fix go (a b : list value) : result bool :=
         match a, b with
         | [], [] => Ok (cmp_holds op Datatypes.Eq)
         | [], _ :: _ => Ok (cmp_holds op Datatypes.Lt)
         | _ :: _, [] => Ok (cmp_holds op Datatypes.Gt)
         | x :: a', y :: b' => if py_eq x y then go a' b' else py_cmp op x y
         end) a b
  | _, _ =>
      match num v, num w with
      | Some m, Some n => Ok (cmp_holds op (Z.compare m n))
      | _, _ => Raise TypeError
      end
  end.

Definition py_lt := py_cmp Lt.
Definition py_gt := py_cmp Gt.

(** [hash(v)] succeeds: lists and dictionaries are unhashable. *)
Definition hashable (v : value) : bool :=
  match v with
  | VList _ | VDict _ => false
  | _ => true
  end.

(** [t in s] for two strings: [t] occurs in [s] as a substring. *)
Fixpoint is_substring (t s : string) : bool :=
  String.prefix t s ||
  match s with
  | EmptyString => false
  | String _ s' => is_substring t s'
  end.

Fixpoint chars (s : string) : list value :=
  match s with
  | EmptyString => []
  | String c s' => VStr (String c EmptyString) :: chars s'
  end.

(** The elements that [for x in v] runs through. *)
Definition py_iter (v : value) : result (list value) :=
  match v with
  | VList l => Ok l
  | VStr s => Ok (chars s)
  | VDict d => Ok ((fun kv => VStr (fst kv)) <$> d)
  | _ => Raise TypeError
  end.

(** [x in l] for a list [l] *)
Definition list_contains (l : list value) (x : value) : bool :=
  existsb (fun y => py_eq y x) l.

(** [x in c] *)
Definition py_in (x c : value) : result bool :=
  match c with
  | VList l => Ok (list_contains l x)
  | VStr s =>
      match x with
      | VStr t => Ok (is_substring t s)
      | _ => Raise TypeError
      end
  | VDict d =>
      match x with
      | VStr k => Ok (dict_contains d k)
      | _ => if hashable x then Ok false else Raise TypeError
      end
  | _ => Raise TypeError
  end.

(** [bool(d)] for a dictionary *)
Definition truthy (d : dict) : bool :=
  match d with [] => false | _ :: _ => true end.

(** ** The backing store

    [InMemoryCollection] wraps its [data_store], which is either a Python
    list of documents or a Python dictionary from identities to documents
    and which every method inspects with [isinstance].  The keys of the
    dictionary are compared with [==] after hashing, so that [1] and [True]
    are one key. *)

Inductive data_store :=
| ListStore (l : list dict)
| DictStore (d : list (value * dict)).

(** Position of key [k] in a keyed store. *)
Fixpoint kd_index (d : list (value * dict)) (k : value) : option nat :=
  match d with
  | [] => None
  | (k', _) :: rest => if py_eq k' k then Some 0 else S <$> kd_index rest k
  end.

(** [d[k] = item] on a keyed store *)
Fixpoint kd_set (d : list (value * dict)) (k : value) (item : dict)
  : list (value * dict) :=
  match d with
  | [] => [(k, item)]
  | (k', item') :: rest =>
      if py_eq k' k then (k', item) :: rest else (k', item') :: kd_set rest k item
  end.

(** [self.data_store if isinstance(self.data_store, list)
     else self.data_store.values()] *)
Definition store_values (self : data_store) : list dict :=
  match self with
  | ListStore l => l
  | DictStore d => snd <$> d
  end.

(** The store after the document at position [i] became [item]. *)
Definition store_put (self : data_store) (i : nat) (item : dict) : data_store :=
  match self with
  | ListStore l => ListStore (<[i:=item]> l)
  | DictStore d => DictStore (alter (fun kv => (fst kv, item)) i d)
  end.

(** ** [InMemoryCollection._matches] *)

(** One turn of the loop over [query.items()]: [true] when the loop goes on
    to the next clause, [false] when it returns [False]. *)
Definition clause (item : dict) (key : string) (value : value) : result bool :=
  if String.prefix "$" key then Ok true
  else
    match value with
    | VDict ops =>
        match dict_get ops "$in" with
        | Some vs =>
            match get item key with
            | VList item_value =>
                members <~ py_iter vs ;;
                Ok (existsb (fun v => list_contains item_value v) members)
            | item_value => py_in item_value vs
            end
        | None =>
            match dict_get ops "$gte" with
            | Some bound =>
                b <~ py_lt (get_default item key (VStr "")) bound ;;
                Ok (negb b)
            | None =>
                match dict_get ops "$lte" with
                | Some bound =>
                    b <~ py_gt (get_default item key (VStr "")) bound ;;
                    Ok (negb b)
                | None => Ok true
                end
            end
        end
    | _ => Ok (py_eq (get item key) value)
    end.

Fixpoint matches_loop (item : dict) (entries : dict) : result bool :=
  match entries with
  | [] => Ok true
  | (key, value) :: rest =>
      b <~ clause item key value ;;
      if b then matches_loop item rest else Ok false
  end.

Definition _matches (item query : dict) : result bool :=
  if negb (truthy query) then Ok true else matches_loop item query.

(** ** [find], [find_one], [count_documents] *)

Fixpoint find_loop (items : list dict) (query : dict) : result (list dict) :=
  match items with
  | [] => Ok []
  | item :: rest =>
      b <~ _matches item query ;;
      results <~ find_loop rest query ;;
      Ok (if b then item :: results else results)
  end.

Definition find (self : data_store) (query : option dict)
  : result (list dict) :=
  let query := match query with None => [] | Some q => q end in
  find_loop (store_values self) query.

(** Position of the first element on which [p] answers [True]; the
    elements before it have been tested, those after it have not. *)
Fixpoint first_index {A} (p : A -> result bool) (l : list A)
  : result (option nat) :=
  match l with
  | [] => Ok None
  | x :: rest =>
      b <~ p x ;;
      if b then Ok (Some 0%nat)
      else (r <~ first_index p rest ;; Ok (S <$> r))
  end.

(** [find_one], returning the position of the document it returns. *)
Definition find_one_ref (self : data_store) (query : dict)
  : result (option nat) :=
  let scan := first_index (fun item => _matches item query) (store_values self) in
  match dict_get query "_id" with
  | Some qid =>
      match self with
      | DictStore d =>
          if hashable qid then Ok (kd_index d qid) else Raise TypeError
      | ListStore l =>
          r <~ first_index (fun item => Ok (py_eq (get item "_id") qid)) l ;;
          match r with
          | Some i => Ok (Some i)
          | None => scan
          end
      end
  | None => scan
  end.

Definition find_one (self : data_store) (query : dict) : result (option dict) :=
  r <~ find_one_ref self query ;;
  Ok (i ← r; store_values self !! i).

Definition count_documents (self : data_store) (query : dict) : result nat :=
  rmap length (find self (Some query)).

(** ** [insert_one], [insert_many] *)

Record InsertResult := { inserted_id : value }.

Definition insert_one (document : dict) : M data_store InsertResult :=
  fun self =>
    let res := {| inserted_id := get document "_id" |} in
    match self with
    | ListStore l => (Ok res, ListStore (l ++ [document]))
    | DictStore d =>
        match dict_get document "_id" with
        | None => (Raise KeyError, self)
        | Some k =>
            if hashable k then (Ok res, DictStore (kd_set d k document))
            else (Raise TypeError, self)
        end
    end.

Definition insert_many (documents : list dict) : M data_store unit :=
  mfor documents (fun doc => insert_one doc ;;; mret tt).

(** ** [update_one] *)

(** [item.update(update["$set"])] when ["$set" in update].  The operand is a
    mapping in every descriptor that the handlers build, and the properties
    of [update_one] on a located document are stated for mapping operands
    ([operand]).  [dict.update] raises [TypeError] on an operand that cannot
    be iterated; it also accepts an iterable of pairs, which is outside
    this model. *)
Definition apply_set (update : dict) : M dict unit :=
  match dict_get update "$set" with
  | Some (VDict m) => fun item => (Ok tt, dict_update item m)
  | Some _ => mraise TypeError
  | None => mret tt
  end.

(** One turn of the loop over [update["$push"].items()]. *)
Definition push_one (key : string) (v : value) : M dict unit :=
  fun item =>
    let item := if dict_contains item key then item
                else dict_set item key (VList []) in
    match dict_get item key with
    | Some (VList l) => (Ok tt, dict_set item key (VList (l ++ [v])))
    | _ => (Raise AttributeError, item)
    end.

Definition apply_push (update : dict) : M dict unit :=
  match dict_get update "$push" with
  | Some (VDict p) => mfor p (fun kv => push_one (fst kv) (snd kv))
  | Some _ => mraise AttributeError
  | None => mret tt
  end.

Definition update_item (update : dict) : M dict unit :=
  (apply_set update ;;; apply_push update).

Definition update_one (query update : dict) : M data_store unit :=
  fun self =>
    match find_one_ref self query with
    | Raise e => (Raise e, self)
    | Ok None => (Ok tt, self)
    | Ok (Some i) =>
        match store_values self !! i with
        | None => (Ok tt, self)
        | Some item =>
            if truthy item then
              let (r, item') := update_item update item in
              (r, store_put self i item')
            else (Ok tt, self)
        end
    end.

(** * Range clauses on floating-point numbers

    A Python [float] is an IEEE 754 double: a [spec_float] of the standard
    library.  Between two floats the ordering operators are those of IEEE
    754, every one of which is false when an operand is NaN; between an
    [int] or a [bool] and a float Python compares the exact values; a float
    is ordered with nothing else. *)

(** A value that is a [float], or a value without floats. *)
Inductive fvalue :=
| Plain (v : value)
| Float (x : SpecFloat.spec_float).

Abbreviation fdict := (list (string * fvalue)).

Fixpoint fdict_get (d : fdict) (k : string) : option fvalue :=
  match d with
  | [] => None
  | (k', v) :: rest => if String.eqb k' k then Some v else fdict_get rest k
  end.

(** [d.get(k, dflt)] *)
Definition fget_default (d : fdict) (k : string) (dflt : fvalue) : fvalue :=
  match fdict_get d k with Some v => v | None => dflt end.

(** The exact value [m * 2 ^ e] of a finite float, with its sign. *)
Definition signed (s : bool) (m : positive) : Z :=
  if s then Z.neg m else Z.pos m.

(** How the integer [n] compares with the float [x]; nothing for NaN. *)
Definition compare_int_float (n : Z) (x : SpecFloat.spec_float) : option comparison :=
  match x with
  | SpecFloat.S754_nan => None
  | SpecFloat.S754_infinity s => Some (if s then Datatypes.Gt else Datatypes.Lt)
  | SpecFloat.S754_zero _ => Some (Z.compare n 0)
  | SpecFloat.S754_finite s m e =>
      if Z.leb 0 e then Some (Z.compare n (signed s m * 2 ^ e))
      else Some (Z.compare (n * 2 ^ (- e)) (signed s m))
  end.

(** The verdict of an operator on an outcome of a comparison: false when
    there is none. *)
Definition cmp_verdict (op : cmpop) (c : option comparison) : bool :=
  match c with
  | Some c => cmp_holds op c
  | None => false
  end.

(** [v op w] *)
Definition f_cmp (op : cmpop) (v w : fvalue) : result bool :=
  match v, w with
  | Plain a, Plain b => py_cmp op a b
  | Float x, Float y => Ok (cmp_verdict op (SpecFloat.SFcompare x y))
  | Plain a, Float y =>
      match num a with
      | Some n => Ok (cmp_verdict op (compare_int_float n y))
      | None => Raise TypeError
      end
  | Float x, Plain b =>
      match num b with
      | Some n => Ok (cmp_verdict op (option_map CompOpp (compare_int_float n x)))
      | None => Raise TypeError
      end
  end.

(** One turn of the loop of [_matches] for a key that does not begin with
    [$] and an operator document [ops] without [$in]: the branches
    [elif "$gte" in value] and [elif "$lte" in value]. *)
Definition range_clause (item : fdict) (key : string) (ops : fdict) : result bool :=
  match fdict_get ops "$gte" with
  | Some bound =>
      b <~ f_cmp Lt (fget_default item key (Plain (VStr ""))) bound ;;
      Ok (negb b)
  | None =>
      match fdict_get ops "$lte" with
      | Some bound =>
          b <~ f_cmp Gt (fget_default item key (Plain (VStr ""))) bound ;;
          Ok (negb b)
      | None => Ok true
      end
  end.

(** [_matches(item, query)] for a query every value of which is an
    operator document without [$in]. *)
Fixpoint range_loop (item : fdict) (entries : list (string * fdict)) : result bool :=
  match entries with
  | [] => Ok true
  | (key, ops) :: rest =>
      if String.prefix "$" key then range_loop item rest
      else
        match range_clause item key ops with
        | Raise e => Raise e
        | Ok b => if b then range_loop item rest else Ok false
        end
  end.

Definition range_matches (item : fdict) (query : list (string * fdict)) : result bool :=
  match query with
  | [] => Ok true
  | _ => range_loop item query
  end.

(** A dictionary without floats, among the dictionaries with floats. *)
Definition plain (d : dict) : fdict := (fun kv => (fst kv, Plain (snd kv))) <$> d.

(** A query of operator documents, as a query of [_matches]. *)
Definition operator_query (query : list (string * dict)) : dict :=
  (fun kv => (fst kv, VDict (snd kv))) <$> query.

Definition plain_query (query : list (string * dict)) : list (string * fdict) :=
  (fun kv => (fst kv, plain (snd kv))) <$> query.


(** * The callers of the store

    [init_database] of [src/backend/database.py] and the request handlers
    of [src/backend/routers/announcements.py].  What the handlers take from
    outside the program is an argument of the model: the current date and
    time as ISO strings ([date.today().isoformat()],
    [datetime.now().isoformat()]), whether [datetime.fromisoformat] accepts
    a string, and the builtin [str].  The collection that the handlers
    import, [announcements_collection], is not defined in the source; the
    handlers are modelled over any store. *)

(** [bool(v)] *)
Definition py_truthy (v : value) : bool :=
  match v with
  | VNone => false
  | VBool b => b
  | VInt n => negb (Z.eqb n 0)
  | VStr s => negb (String.eqb s "")
  | VList l => match l with [] => false | _ :: _ => true end
  | VDict d => truthy d
  end.

(** ** [get_active_announcements], [get_all_announcements] *)

(** [v and v < today], as the condition of an [if]. *)
Definition before_today (v : value) (today : string) : result bool :=
  if py_truthy v then py_lt v (VStr today) else Ok false.

(** [v and v > today], as the condition of an [if]. *)
Definition after_today (v : value) (today : string) : result bool :=
  if py_truthy v then py_gt v (VStr today) else Ok false.

Fixpoint active_loop (today : string) (all_announcements : list dict)
  : result (list dict) :=
  match all_announcements with
  | [] => Ok []
  | announcement :: rest =>
      expired <~ before_today (get announcement "expiration_date") today ;;
      if expired then active_loop today rest
      else
        (not_started <~ after_today (get announcement "start_date") today ;;
         active_announcements <~ active_loop today rest ;;
         Ok (if not_started then active_announcements
             else announcement :: active_announcements))
  end.

Definition get_active_announcements (today : string) (self : data_store)
  : result (list dict) :=
  all_announcements <~ find self None ;;
  active_loop today all_announcements.

Definition get_all_announcements (self : data_store) : result (list dict) :=
  find self None.

(** ** Requests and responses *)

(** What a handler does: it returns, it raises an [HTTPException], or an
    exception of the store escapes it. *)
Inductive outcome (A : Type) :=
| Returned (a : A)
| HTTPException (status_code : nat) (detail : string)
| Unhandled (e : exn).
Arguments Returned {A} a.
Arguments HTTPException {A} status_code detail.
Arguments Unhandled {A} e.

Definition handler (A : Type) : Type := data_store -> outcome A * data_store.

(** The request body of [create_announcement], and its [.dict()]. *)
Module AnnouncementCreate.
Record t := {
  title : string;
  message : string;
  start_date : option string;
  expiration_date : string;
  created_by : string
}.

Definition optional (o : option string) : value :=
  match o with Some s => VStr s | None => VNone end.

Definition to_dict (a : t) : dict :=
  [("title", VStr (title a));
   ("message", VStr (message a));
   ("start_date", optional (start_date a));
   ("expiration_date", VStr (expiration_date a));
   ("created_by", VStr (created_by a))].
End AnnouncementCreate.

(** The request body of [update_announcement]: each field is unset, null or
    a string, and [.dict(exclude_unset=True)] keeps the fields that are
    set. *)
Module AnnouncementUpdate.
Record t := {
  title : option (option string);
  message : option (option string);
  start_date : option (option string);
  expiration_date : option (option string)
}.

Definition field (name : string) (f : option (option string)) : dict :=
  match f with
  | None => []
  | Some o => [(name, AnnouncementCreate.optional o)]
  end.

Definition to_dict_exclude_unset (a : t) : dict :=
  field "title" (title a) ++ field "message" (message a) ++
  field "start_date" (start_date a) ++
  field "expiration_date" (expiration_date a).
End AnnouncementUpdate.

(** [if v: datetime.fromisoformat(v)]: [Ok false] stands for the
    [ValueError] that the handlers turn into status 400. *)
Definition check_date (fromisoformat : string -> bool) (v : value) : result bool :=
  if py_truthy v then
    match v with
    | VStr s => Ok (fromisoformat s)
    | _ => Raise TypeError
    end
  else Ok true.

(** The [try] block of the two handlers: the expiration date is checked
    first, then the start date. *)
Definition check_dates (fromisoformat : string -> bool)
    (expiration_date start_date : value) : result bool :=
  ok <~ check_date fromisoformat expiration_date ;;
  if ok then check_date fromisoformat start_date else Ok false.

Definition invalid_date {A} : outcome A :=
  HTTPException 400 "Invalid date format. Use YYYY-MM-DD".

Definition not_found {A} : outcome A :=
  HTTPException 404 "Announcement not found".

(** [not existing], for what [find_one] returned. *)
Definition missing (existing : option dict) : bool :=
  match existing with
  | None => true
  | Some item => negb (truthy item)
  end.

(** ** [create_announcement] *)

(** Where [insert_one] has put [document] in the store [before]: the
    handler keeps the dictionary that it has inserted and assigns to it
    afterwards, which is an assignment to the stored document. *)
Definition stored_at (document : dict) (before : data_store) : option nat :=
  match before with
  | ListStore l => Some (length l)
  | DictStore d =>
      k ← dict_get document "_id"; kd_index (kd_set d k document) k
  end.

Definition create_announcement (fromisoformat : string -> bool) (now : string)
    (str : value -> string) (announcement : AnnouncementCreate.t)
  : handler dict :=
  fun self =>
    match check_dates fromisoformat
            (VStr (AnnouncementCreate.expiration_date announcement))
            (AnnouncementCreate.optional (AnnouncementCreate.start_date announcement))
    with
    | Raise e => (Unhandled e, self)
    | Ok false => (invalid_date, self)
    | Ok true =>
        let announcement_data :=
          dict_set (AnnouncementCreate.to_dict announcement) "created_at" (VStr now) in
        match insert_one announcement_data self with
        | (Raise e, self') => (Unhandled e, self')
        | (Ok result, self') =>
            let announcement_data' :=
              dict_set announcement_data "_id" (VStr (str (inserted_id result))) in
            (Returned announcement_data',
             match stored_at announcement_data self with
             | Some i => store_put self' i announcement_data'
             | None => self'
             end)
        end
    end.

(** ** [update_announcement], [delete_announcement] *)

Definition update_announcement (fromisoformat : string -> bool)
    (announcement_id : string) (announcement : AnnouncementUpdate.t)
  : handler (option dict) :=
  fun self =>
    let by_id := [("_id", VStr announcement_id)] in
    match find_one self by_id with
    | Raise e => (Unhandled e, self)
    | Ok existing =>
        if missing existing then (not_found, self)
        else
          let update_data := AnnouncementUpdate.to_dict_exclude_unset announcement in
          match check_dates fromisoformat (get update_data "expiration_date")
                  (get update_data "start_date") with
          | Raise e => (Unhandled e, self)
          | Ok false => (invalid_date, self)
          | Ok true =>
              let (r, self') :=
                if truthy update_data
                then update_one by_id [("$set", VDict update_data)] self
                else (Ok tt, self) in
              match r with
              | Raise e => (Unhandled e, self')
              | Ok _ =>
                  match find_one self' by_id with
                  | Raise e => (Unhandled e, self')
                  | Ok updated => (Returned updated, self')
                  end
              end
          end
    end.

Definition delete_announcement (announcement_id : string) : handler dict :=
  fun self =>
    let by_id := [("_id", VStr announcement_id)] in
    match find_one self by_id with
    | Raise e => (Unhandled e, self)
    | Ok existing =>
        if missing existing then (not_found, self)
        else
          match update_one by_id [("$set", VDict [("_deleted", VBool true)])] self with
          | (Raise e, self') => (Unhandled e, self')
          | (Ok _, self') =>
              (Returned [("message", VStr "Announcement deleted successfully")], self')
          end
    end.

(** ** [init_database] *)

(** The three collections of the module. *)
Record database := {
  activities_collection : data_store;
  teachers_collection : data_store;
  announcements_collection : data_store
}.

(** The state in which the module leaves the two collections that it
    defines: [InMemoryCollection([])] and [InMemoryCollection({})]. *)
Definition activities_collection_0 : data_store := ListStore [].
Definition teachers_collection_0 : data_store := DictStore [].

(** [{"_id": name, **details}] *)
Definition activity_document (name : string) (details : dict) : dict :=
  dict_update [("_id", VStr name)] details.

(** [{"_id": teacher["username"], **teacher}] *)
Definition teacher_document (teacher : dict) : result dict :=
  match dict_get teacher "username" with
  | Some username => Ok (dict_update [("_id", username)] teacher)
  | None => Raise KeyError
  end.

(** One block of [init_database]:
    [if collection.count_documents({}) == 0: for x in initial:
     collection.insert_one(document(x))]. *)
Definition seed_if_empty {X} (document : X -> result dict) (initial : list X)
  : M data_store unit :=
  fun self =>
    match count_documents self [] with
    | Raise e => (Raise e, self)
    | Ok n =>
        if Nat.eqb n 0 then
          mfor initial
            (fun x self =>
               match document x with
               | Raise e => (Raise e, self)
               | Ok doc => (insert_one doc ;;; mret tt) self
               end) self
        else (Ok tt, self)
    end.

(** [init_database()]: the three blocks in their order.  [database.py]
    binds [activities_collection] and [teachers_collection]; the third block
    reads [announcements_collection], a name the module never binds, so a
    call of the module as it stands ends there, after the first two blocks
    have run.  The third collection is a field of the state here, and the
    properties of [init_database] speak of the first two collections only,
    which the third block does not reach. *)
Definition init_database
    (initial_activities : list (string * dict))
    (initial_teachers initial_announcements : list dict)
  : M database unit :=
  fun db =>
    let (r1, activities) :=
      seed_if_empty (fun kv => Ok (activity_document (fst kv) (snd kv)))
        initial_activities (activities_collection db) in
    let db1 := {| activities_collection := activities;
                  teachers_collection := teachers_collection db;
                  announcements_collection := announcements_collection db |} in
    match r1 with
    | Raise e => (Raise e, db1)
    | Ok _ =>
        let (r2, teachers) :=
          seed_if_empty teacher_document initial_teachers (teachers_collection db) in
        let db2 := {| activities_collection := activities;
                      teachers_collection := teachers;
                      announcements_collection := announcements_collection db |} in
        match r2 with
        | Raise e => (Raise e, db2)
        | Ok _ =>
            let (r3, announcements) :=
              seed_if_empty Ok initial_announcements (announcements_collection db) in
            (r3, {| activities_collection := activities;
                    teachers_collection := teachers;
                    announcements_collection := announcements |})
        end
    end.

(** * Vocabulary of the properties *)

(** Induction on values, through the lists and dictionaries nested in
    them. *)
Section value_induction.
Variable P : value -> Prop.
Hypothesis HNone : P VNone.
Hypothesis HBool : forall b, P (VBool b).
Hypothesis HInt : forall n, P (VInt n).
Hypothesis HStr : forall s, P (VStr s).
Hypothesis HList : forall l, Forall P l -> P (VList l).
Hypothesis HDict : forall d, Forall (fun kv => P (snd kv)) d -> P (VDict d).

End value_induction.


(** Python's [x in l] as a proposition: some element of [l] equals [x]. *)
Definition member (x : value) (l : list value) : Prop :=
  exists y, y ∈ l /\ py_eq y x = true.

(** The documents of the examples. *)
Definition announcement_feb : dict :=
  [("title", VStr "Welcome Back Students!"); ("expiration_date", VStr "2026-02-28")].
Definition announcement_mar : dict :=
  [("title", VStr "Spring Activities Fair"); ("expiration_date", VStr "2026-03-15")].
Definition chess_club : dict :=
  [("_id", VStr "Chess Club");
   ("participants", VList [VStr "a@x.edu"; VStr "b@x.edu"])].

(** A query that names no field on which two documents differ. *)
Definition agree_on (query a b : dict) : Prop :=
  forall key, dict_contains query key = true -> dict_get a key = dict_get b key.

(** The list that a [$push] to field [key] extends: the field's list, or a
    fresh empty list when the document has no such field. *)
Definition field_list (o : option value) : list value :=
  match o with
  | Some (VList l) => l
  | _ => []
  end.

(** A field to which [$push] can append: absent, or a list. *)
Definition pushable (o : option value) : bool :=
  match o with
  | None | Some (VList _) => true
  | Some _ => false
  end.

(** The fields of a document after [$set] with the mapping [m]. *)
Definition after_set (item m : dict) (key : string) : option value :=
  match dict_get m key with
  | Some v => Some v
  | None => dict_get item key
  end.

(** The operand of [$set] or [$push] in an update descriptor when it is a
    mapping, the empty mapping standing for an operator that the descriptor
    does not have. *)
Definition operand (update : dict) (op : string) : option dict :=
  match dict_get update op with
  | None => Some []
  | Some (VDict m) => Some m
  | Some _ => None
  end.

(** The stores and descriptors of the examples. *)
Definition doc_A_old : dict := [("_id", VStr "A"); ("k", VStr "old")].
Definition doc_A_x1 : dict := [("_id", VStr "A"); ("x", VInt 1)].
Definition doc_A_x2 : dict := [("_id", VStr "A"); ("x", VInt 2)].
Definition set_k_v : dict := [("$set", VDict [("k", VStr "v")])].

(** Every document is stored under its own [_id], and no two under keys
    that are equal. *)
Fixpoint keyed_wf (d : list (value * dict)) : Prop :=
  match d with
  | [] => True
  | (k, item) :: rest =>
      hashable k = true /\ py_eq k (get item "_id") = true /\
      kd_index rest k = None /\ keyed_wf rest
  end.

(** Two numbers, or two strings: operands on which the ordering operators
    are defined whatever their content. *)
Definition comparable (v w : value) : bool :=
  match v, w with
  | VStr _, VStr _ => true
  | _, _ =>
      match num v, num w with
      | Some _, Some _ => true
      | _, _ => false
      end
  end.

(** A clause that cannot raise on [item]: the operand of [$in] is a list;
    the bound of the [$gte] or [$lte] that decides the clause is comparable
    with the field, an absent field counting as a string. *)
Definition clause_typed (item : dict) (key : string) (value : value) : bool :=
  match value with
  | VDict ops =>
      match dict_get ops "$in" with
      | Some (VList _) => true
      | Some _ => false
      | None =>
          match dict_get ops "$gte" with
          | Some bound => comparable (get_default item key (VStr "")) bound
          | None =>
              match dict_get ops "$lte" with
              | Some bound => comparable (get_default item key (VStr "")) bound
              | None => true
              end
          end
      end
  | _ => true
  end.

Definition query_typed (self : data_store) (query : dict) : bool :=
  forallb (fun item => forallb (fun kv => clause_typed item (fst kv) (snd kv)) query)
    (store_values self).

(** On a keyed store the [_id] of the query is looked up as a key. *)
Definition id_typed (self : data_store) (query : dict) : bool :=
  match self, dict_get query "_id" with
  | DictStore _, Some qid => hashable qid
  | _, _ => true
  end.

(** A keyed store files a document under its [_id]. *)
Definition insertable (self : data_store) (document : dict) : bool :=
  match self with
  | ListStore _ => true
  | DictStore _ =>
      match dict_get document "_id" with
      | Some k => hashable k
      | None => false
      end
  end.

(** The operands of [$set] and [$push] are mappings, and on every document
    a field named in [$push] is, after [$set], absent or a list. *)
Definition update_typed (self : data_store) (update : dict) : bool :=
  match operand update "$set", operand update "$push" with
  | Some m, Some p =>
      forallb (fun item =>
                 forallb (fun kv => pushable (dict_get (dict_update item m) (fst kv))) p)
        (store_values self)
  | _, _ => false
  end.

(** A document on which the query evaluates to [True]. *)
Definition satisfies (query item : dict) : bool :=
  match _matches item query with
  | Ok true => true
  | _ => false
  end.

(** A document on which the query evaluates, to [True] or to [False]. *)
Definition evaluates (query item : dict) : Prop :=
  exists b, _matches item query = Ok b.

(** The store has the same backing and, when keyed, the same keys in the
    same order. *)
Definition same_keys (a b : data_store) : Prop :=
  match a, b with
  | ListStore _, ListStore _ => True
  | DictStore d, DictStore d' => fst <$> d = fst <$> d'
  | _, _ => False
  end.

(** A date field as the handlers write it: absent or null, or a string. *)
Definition date_like (v : value) : bool :=
  match v with
  | VNone | VStr _ => true
  | _ => false
  end.

Definition string_dated (announcement : dict) : Prop :=
  date_like (get announcement "expiration_date") = true /\
  date_like (get announcement "start_date") = true.

(** The date that a field gives, if it gives one: a non-empty string. *)
Definition date_of (v : value) : option string :=
  match v with
  | VStr s => if String.eqb s "" then None else Some s
  | _ => None
  end.

(** An announcement that is running on the day [today]: it has not expired
    and it has started, a date that is not given setting no limit. *)
Definition active_on (today : string) (announcement : dict) : bool :=
  match date_of (get announcement "expiration_date") with
  | Some expiration => String.leb today expiration
  | None => true
  end &&
  match date_of (get announcement "start_date") with
  | Some start => String.leb start today
  | None => true
  end.

(** The fields that the two announcement handlers never write. *)
Definition kept_by_update (f : string) : Prop :=
  f <> "title" /\ f <> "message" /\ f <> "start_date" /\ f <> "expiration_date".

(** The document that [create_announcement] builds: the fields of the
    request, the creation time, and as [_id] the string of the
    [inserted_id] of a document that has no [_id]. *)
Definition created_document (now : string) (str : value -> string)
    (announcement : AnnouncementCreate.t) : dict :=
  dict_set
    (dict_set (AnnouncementCreate.to_dict announcement) "created_at" (VStr now))
    "_id" (VStr (str VNone)).

(** The dates of a creation request pass the check of the handler. *)
Definition dates_accepted (fromisoformat : string -> bool)
    (announcement : AnnouncementCreate.t) : Prop :=
  check_dates fromisoformat
    (VStr (AnnouncementCreate.expiration_date announcement))
    (AnnouncementCreate.optional (AnnouncementCreate.start_date announcement))
  = Ok true.

(** A handler has returned normally. *)
Definition returned {A} (o : outcome A) : Prop :=
  match o with
  | Returned _ => True
  | _ => False
  end.

(** A date of an update request that the handler rejects: a non-empty
    string that [datetime.fromisoformat] does not accept.  An unset field,
    null and the empty string are not checked. *)
Definition date_rejected (fromisoformat : string -> bool)
    (f : option (option string)) : bool :=
  match f with
  | Some (Some s) => negb (String.eqb s "") && negb (fromisoformat s)
  | _ => false
  end.

(** Two announcements with the same two dates. *)
Definition same_dates (a b : dict) : Prop :=
  get a "expiration_date" = get b "expiration_date" /\
  get a "start_date" = get b "start_date".

(** The documents of the example of a rewritten [_id]. *)
Definition doc_A : dict := [("_id", VStr "A")].
Definition doc_A_as_B : dict := [("_id", VStr "B")].
Definition doc_B_x2 : dict := [("_id", VStr "B"); ("x", VInt 2)].

(** The documents have pairwise different values of field [f]. *)
Fixpoint distinct_on (f : string) (documents : list dict) : Prop :=
  match documents with
  | [] => True
  | document :: rest =>
      Forall (fun later => py_eq (get later f) (get document f) = false) rest /\
      distinct_on f rest
  end.

(** The documents have pairwise different [_id]s. *)
Definition ids_distinct (documents : list dict) : Prop := distinct_on "_id" documents.

(** A document that a keyed store accepts: it has a hashable [_id]. *)
Definition has_id (document : dict) : Prop :=
  insertable (DictStore []) document = true.

(** The document that [init_database] stores for a teacher. *)
Definition teacher_entry (teacher : dict) : dict :=
  dict_update [("_id", get teacher "username")] teacher.

(** A seed teacher: a hashable [username], and no [_id] of its own. *)
Definition seed_teacher (teacher : dict) : Prop :=
  (exists username, dict_get teacher "username" = Some username /\
                    hashable username = true) /\
  dict_contains teacher "_id" = false.

(** * Properties *)

(** ** The ordering operators *)





(** ** Dictionaries *)

Lemma dict_get_set_eq d k v : dict_get (dict_set d k v) k = Some v.
Proof.
  induction d as [ | [k' v'] d IH ]; simpl.
  - by rewrite String.eqb_refl.
  - destruct (String.eqb k' k) eqn:E; simpl; rewrite E; auto.
Qed.

Lemma dict_get_set_ne d k v k' :
  k <> k' -> dict_get (dict_set d k v) k' = dict_get d k'.
Proof.
  intros Hne. induction d as [ | [k0 v0] d IH ]; simpl.
  - destruct (String.eqb_spec k k'); [contradiction | reflexivity].
  - destruct (String.eqb_spec k0 k) as [-> | Hk]; simpl.
    + destruct (String.eqb_spec k k'); [contradiction | reflexivity].
    + destruct (String.eqb_spec k0 k'); [reflexivity | apply IH].
Qed.

Lemma dict_get_None_notin (d : dict) k :
  dict_get d k = None <-> k ∉ fst <$> d.
Proof.
  induction d as [ | [k' v'] d IH ]; simpl.
  - split; [intros _; apply not_elem_of_nil | reflexivity].
  - rewrite not_elem_of_cons.
    destruct (String.eqb_spec k' k) as [-> | Hk]; split.
    + discriminate.
    + intros [H _]. contradiction.
    + intros H. split; [congruence | by apply IH].
    + intros [_ H]. by apply IH.
Qed.

(** After [d.update(m)] a key of [m] holds the value [m] gives it and every
    other key holds what it held. *)
Lemma dict_get_update (m : dict) : forall (d : dict) k,
  dict_wf m ->
  dict_get (dict_update d m) k =
    match dict_get m k with Some v => Some v | None => dict_get d k end.
Proof.
  unfold dict_wf, dict_update.
  induction m as [ | [k' v'] m IH ]; simpl; intros d k Hwf; [reflexivity | ].
  apply NoDup_cons in Hwf as [Hk' Hwf].
  rewrite IH by assumption.
  destruct (String.eqb_spec k' k) as [-> | Hk].
  - apply dict_get_None_notin in Hk'. rewrite Hk'. apply dict_get_set_eq.
  - by rewrite dict_get_set_ne.
Qed.

(** ** Matching *)

Lemma matches_cons item key value rest :
  _matches item ((key, value) :: rest) =
    (b <~ clause item key value ;; if b then matches_loop item rest else Ok false).
Proof. reflexivity. Qed.

Lemma matches_loop_matches item query : matches_loop item query = _matches item query.
Proof. destruct query as [ | [key value] rest ]; reflexivity. Qed.

Lemma matches_single item key value :
  _matches item [(key, value)] = clause item key value.
Proof.
  rewrite matches_cons. destruct (clause item key value) as [[ | ] | e]; reflexivity.
Qed.

Lemma matches_loop_true item query :
  matches_loop item query = Ok true <->
  Forall (fun kv => clause item (fst kv) (snd kv) = Ok true) query.
Proof.
  induction query as [ | [key value] rest IH ]; simpl.
  - split; [constructor | reflexivity].
  - rewrite Forall_cons. simpl. rewrite <- IH.
    destruct (clause item key value) as [[ | ] | e]; simpl; split;
      try tauto; try discriminate; intros [H _]; discriminate.
Qed.

Lemma find_loop_all items :
  find_loop items [] = Ok items.
Proof.
  induction items as [ | item rest IH ]; simpl; [reflexivity | ].
  rewrite IH. reflexivity.
Qed.

Lemma list_contains_member l x : list_contains l x = true <-> member x l.
Proof.
  unfold list_contains, member. rewrite existsb_exists.
  split; intros (y & Hy & E); exists y; split; auto; by apply list_elem_of_In.
Qed.

Lemma any_contains_member (l vs : list value) :
  existsb (fun v => list_contains l v) vs = true <->
  exists v, v ∈ vs /\ member v l.
Proof.
  rewrite existsb_exists.
  split; intros (v & Hv & E); exists v; split;
    try (by apply list_elem_of_In); by apply list_contains_member.
Qed.

(** The verdict of an [$in] clause whose operand is a list. *)
Lemma clause_in item f (vs : list value) :
  String.prefix "$" f = false ->
  clause item f (VDict [("$in", VList vs)]) =
    Ok (match get item f with
        | VList l => existsb (fun v => list_contains l v) vs
        | x => list_contains vs x
        end).
Proof.
  intros Hf. unfold clause. rewrite Hf. simpl.
  destruct (get item f); reflexivity.
Qed.



(** C3. A clause [{f: {$in: vs}}] never raises and matches a document as
    follows: when the document's field [f] is a list, iff some member of
    [vs] occurs in that list; otherwise iff the field's value, [None] when
    the document has no field [f], is a member of [vs].  Membership is
    Python's [in]: equality with [==].  A document whose participants are
    a@x.edu and b@x.edu matches [{participants: {$in: ["b@x.edu"]}}] and not
    [{participants: {$in: ["c@x.edu"]}}]. *)
Theorem in_clause_semantics :
  (forall (item : dict) (f : string) (vs : list value),
      String.prefix "$" f = false ->
      exists verdict,
        _matches item [(f, VDict [("$in", VList vs)])] = Ok verdict /\
        (verdict = true <->
         match dict_get item f with
         | Some (VList l) => exists v, v ∈ vs /\ member v l
         | Some x => member x vs
         | None => member VNone vs
         end))
  /\ _matches chess_club [("participants", VDict [("$in", VList [VStr "b@x.edu"])])]
     = Ok true
  /\ _matches chess_club [("participants", VDict [("$in", VList [VStr "c@x.edu"])])]
     = Ok false.
Proof.
  split; [ | split; reflexivity].
  intros item f vs Hf. rewrite matches_single, clause_in by assumption.
  eexists; split; [reflexivity | ].
  unfold get. destruct (dict_get item f) as [x | ].
  - destruct x; try apply list_contains_member. apply any_contains_member.
  - apply list_contains_member.
Qed.

Lemma in_clause_semantics_witness :
  exists verdict,
    _matches chess_club [("participants", VDict [("$in", VList [VStr "b@x.edu"])])]
    = Ok verdict /\
    (verdict = true <->
     exists v, v ∈ [VStr "b@x.edu"] /\ member v [VStr "a@x.edu"; VStr "b@x.edu"]).
Proof.
  destruct in_clause_semantics as [H _].
  exact (H chess_club "participants" [VStr "b@x.edu"] eq_refl).
Defined.

(** C8. A document satisfies a query iff each of its top-level clauses
    passes.  A clause whose field name begins with [$] passes whatever its
    value; a clause whose operator document has none of [$in], [$gte],
    [$lte] passes; the empty query is satisfied by every document, and
    [find] with no query or with the empty query returns every document. *)
Theorem matches_every_clause :
  (forall item query,
      _matches item query = Ok true <->
      Forall (fun kv => clause item (fst kv) (snd kv) = Ok true) query)
  /\ (forall item key value,
        String.prefix "$" key = true -> clause item key value = Ok true)
  /\ (forall item key ops,
        dict_get ops "$in" = None ->
        dict_get ops "$gte" = None ->
        dict_get ops "$lte" = None ->
        clause item key (VDict ops) = Ok true)
  /\ (forall item, _matches item [] = Ok true)
  /\ (forall self,
        find self None = Ok (store_values self) /\
        find self (Some []) = Ok (store_values self)).
Proof.
  repeat split.
  - rewrite <- matches_loop_matches. apply matches_loop_true.
  - rewrite <- matches_loop_matches. apply matches_loop_true.
  - intros item key value Hk. unfold clause. by rewrite Hk.
  - intros item key ops Hin Hgte Hlte. unfold clause.
    rewrite Hin, Hgte, Hlte. by destruct (String.prefix "$" key).
  - apply find_loop_all.
  - apply find_loop_all.
Qed.

Lemma matches_every_clause_witness :
  clause chess_club "$or" (VList []) = Ok true /\
  clause chess_club "participants" (VDict [("$regex", VStr "a")]) = Ok true.
Proof.
  destruct matches_every_clause as (_ & Hdollar & Hunknown & _).
  split.
  - apply Hdollar. reflexivity.
  - apply Hunknown; reflexivity.
Defined.



(** C7. For every state of the collection and every query,
    [count_documents(q)] is the length of [find(q)]; it raises exactly when
    [find(q)] does. *)
Theorem count_documents_is_length_of_find :
  forall (self : data_store) (q : dict),
    count_documents self q = rmap length (find self (Some q)).
Proof. reflexivity. Qed.

(** ** Positions in the store *)

Lemma store_values_put self i item :
  store_values (store_put self i item) = <[i:=item]> (store_values self).
Proof.
  destruct self as [l | d]; simpl; [reflexivity | ].
  revert i. induction d as [ | kv d IH ]; intros [ | i ]; simpl; try reflexivity.
  f_equal. apply IH.
Qed.

Lemma kd_index_alter_value d i item k :
  kd_index (alter (fun kv => (fst kv, item)) i d) k = kd_index d k.
Proof.
  revert i. induction d as [ | [k' it'] d IH ]; intros [ | i ]; simpl; try reflexivity.
  by rewrite <- (IH i).
Qed.

Lemma first_index_insert {A} (p : A -> result bool) l i x x' :
  l !! i = Some x -> p x' = p x ->
  first_index p (<[i:=x']> l) = first_index p l.
Proof.
  revert i. induction l as [ | y l IH ]; intros [ | i ] Hl Hp; simpl in *;
    try discriminate.
  - inversion Hl; subst. by rewrite Hp.
  - by rewrite (IH i).
Qed.

Lemma first_index_none {A} (p : A -> result bool) l :
  Forall (fun x => p x = Ok false) l -> first_index p l = Ok None.
Proof.
  induction 1 as [ | x l Hx _ IH ]; simpl; [reflexivity | ].
  by rewrite Hx, IH.
Qed.

(** The verdict of a query depends on the document only through the
    fields that the query names. *)
Lemma clause_ext (a b : dict) key value :
  dict_get a key = dict_get b key -> clause a key value = clause b key value.
Proof.
  intros H. unfold clause, get, get_default. by rewrite H.
Qed.

Lemma matches_ext (a b : dict) (query : dict) :
  Forall (fun kv => dict_get a (fst kv) = dict_get b (fst kv)) query ->
  _matches a query = _matches b query.
Proof.
  rewrite <- !matches_loop_matches.
  induction 1 as [ | [key value] rest Hkey _ IH ]; simpl; [reflexivity | ].
  rewrite (clause_ext a b key value Hkey). by rewrite IH.
Qed.

Lemma dict_contains_elem_of (d : dict) k :
  dict_contains d k = false <-> k ∉ fst <$> d.
Proof.
  unfold dict_contains. rewrite <- dict_get_None_notin.
  destruct (dict_get d k); split; congruence.
Qed.

Lemma agree_on_Forall query a b :
  agree_on query a b ->
  Forall (fun kv => dict_get a (fst kv) = dict_get b (fst kv)) query.
Proof.
  intros H. apply Forall_forall. intros [key value] Hin. simpl.
  apply H. destruct (dict_contains query key) eqn:E; [reflexivity | ].
  apply dict_contains_elem_of in E. exfalso. apply E.
  by apply (list_elem_of_fmap_2 fst) in Hin.
Qed.

(** Rewriting the located document without touching a field that the query
    names leaves it the located document. *)
Lemma find_one_ref_put self query i item item' :
  store_values self !! i = Some item ->
  agree_on query item' item ->
  find_one_ref (store_put self i item') query = find_one_ref self query.
Proof.
  intros Hi Hagree. unfold find_one_ref. rewrite store_values_put.
  rewrite (first_index_insert (fun it => _matches it query) _ i item item' Hi)
    by (apply matches_ext, agree_on_Forall, Hagree).
  destruct (dict_get query "_id") as [qid | ] eqn:Hid; [ | reflexivity].
  destruct self as [l | d]; simpl in *.
  - rewrite (first_index_insert _ l i item item' Hi); [reflexivity | ].
    unfold get. rewrite (Hagree "_id"); [reflexivity | ].
    unfold dict_contains. by rewrite Hid.
  - by rewrite kd_index_alter_value.
Qed.

Lemma find_one_of_ref self query i item :
  find_one_ref self query = Ok (Some i) ->
  store_values self !! i = Some item ->
  find_one self query = Ok (Some item).
Proof. intros Hr Hi. unfold find_one. rewrite Hr. simpl. by rewrite Hi. Qed.

Lemma store_values_put_lookup self i item item' :
  store_values self !! i = Some item ->
  store_values (store_put self i item') !! i = Some item'.
Proof.
  intros Hi. rewrite store_values_put. apply list_lookup_insert_eq.
  by apply lookup_lt_Some in Hi.
Qed.

(** ** [update_one] *)

Lemma update_one_located self query update i item :
  find_one_ref self query = Ok (Some i) ->
  store_values self !! i = Some item ->
  truthy item = true ->
  update_one query update self =
    (fst (update_item update item), store_put self i (snd (update_item update item))).
Proof.
  intros Hr Hi Ht. unfold update_one. rewrite Hr, Hi, Ht.
  by destruct (update_item update item).
Qed.

(** [update_one] tests the located document with [if item:], so that an
    empty document is located and left alone. *)
Lemma update_one_skips_empty_document query update self i :
  find_one_ref self query = Ok (Some i) ->
  store_values self !! i = Some [] ->
  update_one query update self = (Ok tt, self).
Proof. intros Hr Hi. unfold update_one. by rewrite Hr, Hi. Qed.

Lemma update_item_set_only m item :
  update_item [("$set", VDict m)] item = (Ok tt, dict_update item m).
Proof. reflexivity. Qed.

Lemma push_one_spec key v item :
  pushable (dict_get item key) = true ->
  exists item',
    push_one key v item = (Ok tt, item') /\
    dict_get item' key = Some (VList (field_list (dict_get item key) ++ [v])) /\
    (forall key', key <> key' -> dict_get item' key' = dict_get item key').
Proof.
  destruct (dict_get item key) as [[ | | | | l | ] | ] eqn:Hl; try discriminate;
    intros _; unfold push_one, dict_contains.
  - rewrite Hl. simpl. rewrite Hl. eexists; split; [reflexivity | ].
    split; [apply dict_get_set_eq | ].
    intros key' Hne. by rewrite dict_get_set_ne.
  - rewrite Hl, dict_get_set_eq. simpl. eexists; split; [reflexivity | ].
    split; [apply dict_get_set_eq | ].
    intros key' Hne. by rewrite !dict_get_set_ne.
Qed.

Lemma push_all_spec (p : dict) : forall item,
  dict_wf p ->
  (forall key x, dict_get p key = Some x -> pushable (dict_get item key) = true) ->
  exists item',
    mfor p (fun kv => push_one (fst kv) (snd kv)) item = (Ok tt, item') /\
    forall key,
      dict_get item' key =
        match dict_get p key with
        | Some x => Some (VList (field_list (dict_get item key) ++ [x]))
        | None => dict_get item key
        end.
Proof.
  unfold dict_wf.
  induction p as [ | [key0 x0] p IH ]; intros item Hwf Hok; simpl.
  - exists item. split; [reflexivity | auto].
  - apply NoDup_cons in Hwf as [Hkey0 Hwf].
    destruct (push_one_spec key0 x0 item) as (item1 & Hrun & Hkey & Hother).
    { apply (Hok key0 x0). simpl. by rewrite String.eqb_refl. }
    destruct (IH item1 Hwf) as (item' & Hrest & Hfields).
    { intros key x Hp.
      assert (Hne : key0 <> key).
      { intros ->. apply (proj2 (dict_get_None_notin p key)) in Hkey0. congruence. }
      rewrite (Hother key Hne). apply (Hok key x). simpl.
      by destruct (String.eqb_spec key0 key). }
    exists item'. split.
    + unfold mbind. simpl. rewrite Hrun. exact Hrest.
    + intros key. rewrite Hfields.
      destruct (String.eqb_spec key0 key) as [<- | Hne].
      * apply (proj2 (dict_get_None_notin p key0)) in Hkey0. rewrite Hkey0.
        exact Hkey.
      * by rewrite (Hother key Hne).
Qed.

Lemma update_item_spec update item m p :
  operand update "$set" = Some m ->
  operand update "$push" = Some p ->
  dict_wf m -> dict_wf p ->
  (forall key x, dict_get p key = Some x -> pushable (after_set item m key) = true) ->
  exists item',
    update_item update item = (Ok tt, item') /\
    forall key,
      dict_get item' key =
        match dict_get p key with
        | Some x => Some (VList (field_list (after_set item m key) ++ [x]))
        | None => after_set item m key
        end.
Proof.
  intros Hset Hpush Hm Hp Hok.
  assert (Hs : apply_set update item = (Ok tt, dict_update item m)).
  { unfold apply_set. unfold operand in Hset.
    destruct (dict_get update "$set") as [[ | | | | | m'] | ]; inversion Hset;
      reflexivity. }
  assert (Hfield : forall key, dict_get (dict_update item m) key = after_set item m key).
  { intros key. apply dict_get_update. exact Hm. }
  destruct (push_all_spec p (dict_update item m) Hp) as (item' & Hrun & Hfields).
  { intros key x Hx. rewrite Hfield. eauto. }
  exists item'. split.
  - unfold update_item, mbind. rewrite Hs. unfold apply_push.
    unfold operand in Hpush.
    destruct (dict_get update "$push") as [[ | | | | | p'] | ]; inversion Hpush;
      subst; exact Hrun.
  - intros key. rewrite Hfields, Hfield. reflexivity.
Qed.

(** With a query on the field that [$set] overwrites, the document that
    [update_one] has updated is no longer the one that [find_one] returns:
    here [find_one] finds nothing after the update. *)
Lemma update_then_find_one_misses :
  find_one (ListStore [doc_A_old]) [("k", VStr "old")] = Ok (Some doc_A_old) /\
  update_one [("k", VStr "old")] set_k_v (ListStore [doc_A_old])
  = (Ok tt, ListStore [[("_id", VStr "A"); ("k", VStr "v")]]) /\
  find_one (ListStore [[("_id", VStr "A"); ("k", VStr "v")]]) [("k", VStr "old")]
  = Ok None.
Proof. repeat split. Qed.

(** C4 (amended). When [update_one(query, {$set: m})] locates a non-empty
    document, it returns normally, every field named in [m] holds its new
    value on that document, every other field of it and every other
    document are unchanged.  Moreover, when [query] has no clause on field
    [k], [update_one(query, {$set: {k: v}})] followed by [find_one(query)]
    yields that document, with field [k] equal to [v] and its other fields
    unchanged.  ([update_one] tests the located document with [if item:];
    nothing is said here of an empty one.) *)
Theorem update_one_set_frame :
  (forall self query m i item,
      find_one_ref self query = Ok (Some i) ->
      store_values self !! i = Some item ->
      truthy item = true ->
      dict_wf m ->
      exists item',
        update_one query [("$set", VDict m)] self = (Ok tt, store_put self i item') /\
        store_values (store_put self i item') !! i = Some item' /\
        (forall f v, dict_get m f = Some v -> dict_get item' f = Some v) /\
        (forall f, dict_get m f = None -> dict_get item' f = dict_get item f) /\
        (forall j, j <> i ->
           store_values (store_put self i item') !! j = store_values self !! j))
  /\ (forall self query k v i item,
        find_one_ref self query = Ok (Some i) ->
        store_values self !! i = Some item ->
        truthy item = true ->
        dict_contains query k = false ->
        exists self' item',
          update_one query [("$set", VDict [(k, v)])] self = (Ok tt, self') /\
          find_one self' query = Ok (Some item') /\
          dict_get item' k = Some v /\
          (forall f, f <> k -> dict_get item' f = dict_get item f)).
Proof.
  split.
  - intros self query m i item Hr Hi Ht Hm.
    exists (dict_update item m).
    rewrite (update_one_located self query _ i item Hr Hi Ht), update_item_set_only.
    simpl. split; [reflexivity | ].
    split; [by apply (store_values_put_lookup self i item) | ].
    split; [ | split].
    + intros f v Hf. rewrite dict_get_update by assumption. by rewrite Hf.
    + intros f Hf. rewrite dict_get_update by assumption. by rewrite Hf.
    + intros j Hj. rewrite store_values_put. by apply list_lookup_insert_ne.
  - intros self query k v i item Hr Hi Ht Hk.
    exists (store_put self i (dict_set item k v)), (dict_set item k v).
    rewrite (update_one_located self query _ i item Hr Hi Ht), update_item_set_only.
    simpl. split; [reflexivity | ].
    split; [ | split].
    + apply (find_one_of_ref _ _ i).
      * rewrite (find_one_ref_put self query i item); [exact Hr | exact Hi | ].
        intros key Hkey. apply dict_get_set_ne. intros ->. congruence.
      * by apply (store_values_put_lookup self i item).
    + apply dict_get_set_eq.
    + intros f Hf. by apply dict_get_set_ne.
Qed.

Lemma update_one_set_frame_witness :
  exists self' item',
    update_one [("_id", VStr "A")] set_k_v (DictStore [(VStr "A", doc_A_old)])
    = (Ok tt, self') /\
    find_one self' [("_id", VStr "A")] = Ok (Some item') /\
    dict_get item' "k" = Some (VStr "v") /\
    (forall f, f <> "k" -> dict_get item' f = dict_get doc_A_old f).
Proof.
  destruct update_one_set_frame as [_ H].
  apply (H (DictStore [(VStr "A", doc_A_old)]) [("_id", VStr "A")] "k" (VStr "v")
           0%nat doc_A_old); reflexivity.
Defined.

(** C5 (amended). When [update_one] locates a non-empty document, [$set]
    is applied and then [$push]: a field named in [$push] ends as the list that it
    holds after [$set], or the empty list when it is absent after [$set],
    followed by the pushed value; the other fields end as [$set] leaves
    them.  So pushing [x] to a field that the located document lacks leaves
    the field equal to [[x]], and a second [update_one] that locates the
    same document and pushes [x2] to that field leaves it equal to
    [[x; x2]]; a query with no clause on the field locates the same
    document again.  [update_one] guards the update with [if item:], so
    that a located document that is empty is left as it is.  The operands of [$set] and [$push]
    are mappings, and a field named in [$push] is, after [$set], absent or
    a list. *)
Theorem update_one_set_then_push :
  (forall self query update m p i item,
      find_one_ref self query = Ok (Some i) ->
      store_values self !! i = Some item ->
      truthy item = true ->
      operand update "$set" = Some m ->
      operand update "$push" = Some p ->
      dict_wf m -> dict_wf p ->
      (forall key x, dict_get p key = Some x -> pushable (after_set item m key) = true) ->
      exists item',
        update_one query update self = (Ok tt, store_put self i item') /\
        store_values (store_put self i item') !! i = Some item' /\
        forall key,
          dict_get item' key =
            match dict_get p key with
            | Some x => Some (VList (field_list (after_set item m key) ++ [x]))
            | None => after_set item m key
            end)
  /\ (forall self query i item f x x2,
        find_one_ref self query = Ok (Some i) ->
        store_values self !! i = Some item ->
        truthy item = true ->
        dict_get item f = None ->
        exists self1 item1,
          update_one query [("$push", VDict [(f, x)])] self = (Ok tt, self1) /\
          store_values self1 !! i = Some item1 /\
          dict_get item1 f = Some (VList [x]) /\
          (dict_contains query f = false -> find_one_ref self1 query = Ok (Some i)) /\
          (forall query2,
              find_one_ref self1 query2 = Ok (Some i) ->
              exists self2 item2,
                update_one query2 [("$push", VDict [(f, x2)])] self1 = (Ok tt, self2) /\
                store_values self2 !! i = Some item2 /\
                dict_get item2 f = Some (VList [x; x2]))).
Proof.
  assert (Hgen : forall self query update m p i item,
      find_one_ref self query = Ok (Some i) ->
      store_values self !! i = Some item ->
      truthy item = true ->
      operand update "$set" = Some m ->
      operand update "$push" = Some p ->
      dict_wf m -> dict_wf p ->
      (forall key x, dict_get p key = Some x -> pushable (after_set item m key) = true) ->
      exists item',
        update_one query update self = (Ok tt, store_put self i item') /\
        store_values (store_put self i item') !! i = Some item' /\
        forall key,
          dict_get item' key =
            match dict_get p key with
            | Some x => Some (VList (field_list (after_set item m key) ++ [x]))
            | None => after_set item m key
            end).
  { intros self query update m p i item Hr Hi Ht Hset Hpush Hm Hp Hok.
    destruct (update_item_spec update item m p Hset Hpush Hm Hp Hok)
      as (item' & Hrun & Hfields).
    exists item'. rewrite (update_one_located self query _ i item Hr Hi Ht), Hrun.
    simpl. split; [reflexivity | ].
    split; [by apply (store_values_put_lookup self i item) | exact Hfields]. }
  assert (Hwf1 : forall f x, dict_wf [(f, x)]).
  { intros f x. unfold dict_wf. simpl. apply NoDup_singleton. }
  split; [exact Hgen | ].
  intros self query i item f x x2 Hr Hi Ht Hf.
  destruct (Hgen self query [("$push", VDict [(f, x)])] [] [(f, x)] i item Hr Hi Ht)
    as (item1 & Hrun1 & Hi1 & Hfields1);
    [reflexivity | reflexivity | apply NoDup_nil_2 | apply Hwf1 | | ].
  { intros key y. unfold after_set. simpl.
    destruct (String.eqb_spec f key) as [<- | _]; [ | discriminate].
    intros _. by rewrite Hf. }
  assert (Hf1 : dict_get item1 f = Some (VList [x])).
  { rewrite Hfields1. unfold after_set. simpl. rewrite String.eqb_refl, Hf.
    reflexivity. }
  exists (store_put self i item1), item1.
  split; [exact Hrun1 | ]. split; [exact Hi1 | ]. split; [exact Hf1 | ]. split.
  - intros Hq. rewrite (find_one_ref_put self query i item); [exact Hr | exact Hi | ].
    intros key Hkey. rewrite Hfields1. unfold after_set. simpl.
    destruct (String.eqb_spec f key) as [<- | _]; [congruence | reflexivity].
  - intros query2 Hr2.
    destruct (Hgen (store_put self i item1) query2 [("$push", VDict [(f, x2)])]
                [] [(f, x2)] i item1 Hr2 Hi1)
      as (item2 & Hrun2 & Hi2 & Hfields2);
      [ | reflexivity | reflexivity | apply NoDup_nil_2 | apply Hwf1 | | ].
    { destruct item1; [discriminate | reflexivity]. }
    { intros key y. unfold after_set. simpl.
      destruct (String.eqb_spec f key) as [<- | _]; [ | discriminate].
      intros _. by rewrite Hf1. }
    exists (store_put (store_put self i item1) i item2), item2.
    split; [exact Hrun2 | ]. split; [exact Hi2 | ].
    rewrite Hfields2. unfold after_set. simpl. rewrite String.eqb_refl, Hf1.
    reflexivity.
Qed.

Lemma update_one_set_then_push_witness :
  exists item',
    update_one [("_id", VStr "A")]
      [("$push", VDict [("tags", VInt 2)]); ("$set", VDict [("tags", VList [VInt 1])])]
      (DictStore [(VStr "A", doc_A_x1)])
    = (Ok tt, store_put (DictStore [(VStr "A", doc_A_x1)]) 0 item') /\
    dict_get item' "tags" = Some (VList [VInt 1; VInt 2]).
Proof.
  destruct update_one_set_then_push as [H _].
  destruct (H (DictStore [(VStr "A", doc_A_x1)]) [("_id", VStr "A")]
              [("$push", VDict [("tags", VInt 2)]); ("$set", VDict [("tags", VList [VInt 1])])]
              [("tags", VList [VInt 1])] [("tags", VInt 2)] 0%nat doc_A_x1)
    as (item' & Hrun & _ & Hfields);
    try reflexivity.
  - apply NoDup_singleton.
  - apply NoDup_singleton.
  - intros key x Hx. unfold after_set. cbn [dict_get] in *.
    destruct (String.eqb_spec "tags" key) as [<- | _]; [ | discriminate Hx].
    reflexivity.
  - exists item'. split; [exact Hrun | ]. rewrite Hfields. reflexivity.
Defined.

(** A keyed store whose only document does not satisfy the query
    [{_id: "A", x: 2}], its field [x] being 1: [find] returns nothing, yet
    [update_one] resolves the query by its [_id] alone and updates the
    document. *)
Lemma update_one_unsatisfied_query_mutates :
  find (DictStore [(VStr "A", doc_A_x1)]) (Some [("_id", VStr "A"); ("x", VInt 2)])
  = Ok [] /\
  Forall (fun item => _matches item [("_id", VStr "A"); ("x", VInt 2)] = Ok false)
    (store_values (DictStore [(VStr "A", doc_A_x1)])) /\
  update_one [("_id", VStr "A"); ("x", VInt 2)] [("$set", VDict [("y", VInt 1)])]
    (DictStore [(VStr "A", doc_A_x1)])
  = (Ok tt, DictStore [(VStr "A", [("_id", VStr "A"); ("x", VInt 1); ("y", VInt 1)])]) /\
  snd (update_one [("_id", VStr "A"); ("x", VInt 2)] [("$set", VDict [("y", VInt 1)])]
         (DictStore [(VStr "A", doc_A_x1)]))
  <> DictStore [(VStr "A", doc_A_x1)].
Proof.
  split; [reflexivity | ]. split; [repeat constructor | ].
  split; [reflexivity | ]. simpl. intros H. discriminate H.
Qed.

(** C6 (amended). For every query for which [find_one] locates no document
    ([find_one(query)] returns [None]) and every update descriptor,
    [update_one(query, update)] returns normally and leaves the whole
    collection as it was.  A query without an [_id] clause that no document
    satisfies is such a query. *)
Theorem update_one_not_found_is_noop :
  (forall self query update,
      find_one self query = Ok None ->
      update_one query update self = (Ok tt, self))
  /\ (forall self query update,
        dict_contains query "_id" = false ->
        Forall (fun item => _matches item query = Ok false) (store_values self) ->
        update_one query update self = (Ok tt, self)).
Proof.
  split.
  - intros self query update. unfold find_one, update_one.
    destruct (find_one_ref self query) as [[i | ] | e]; simpl; try discriminate;
      [ | reflexivity].
    destruct (store_values self !! i); [discriminate | reflexivity].
  - intros self query update Hid Hall. unfold update_one, find_one_ref.
    unfold dict_contains in Hid.
    destruct (dict_get query "_id"); [discriminate | ].
    by rewrite (first_index_none _ _ Hall).
Qed.

Lemma update_one_not_found_is_noop_witness :
  update_one [("_id", VStr "B")] set_k_v (DictStore [(VStr "A", doc_A_x1)])
  = (Ok tt, DictStore [(VStr "A", doc_A_x1)]).
Proof.
  destruct update_one_not_found_is_noop as [H _]. apply H. reflexivity.
Defined.

(** ** Keyed stores *)

Ltac scalar_cases :=
  cbn [py_eq hashable] in *; try discriminate; try reflexivity;
  rewrite ?Bool.eqb_true_iff, ?Z.eqb_eq, ?String.eqb_eq in *;
  repeat match goal with b : bool |- _ => destruct b end;
  cbn [Z.b2z] in *; try discriminate; try congruence; try lia.

Lemma py_eq_refl_hashable k : hashable k = true -> py_eq k k = true.
Proof.
  destruct k as [ | b | n | s | l | d ]; simpl; intros H; try discriminate H;
    try reflexivity.
  - by destruct b.
  - apply Z.eqb_refl.
  - apply String.eqb_refl.
Qed.

(** Two keys that equal a third are equal. *)
Lemma py_eq_common a b c :
  hashable b = true -> py_eq a c = true -> py_eq b c = true -> py_eq a b = true.
Proof. destruct a, b, c; intros Hb Hac Hbc; scalar_cases. Qed.

Lemma py_eq_chain a b c :
  hashable a = true -> py_eq a b = true -> py_eq b c = true -> py_eq a c = true.
Proof. destruct a, b, c; intros Ha Hab Hbc; scalar_cases. Qed.

Lemma py_eq_sym_false a b :
  hashable a = true -> hashable b = true -> py_eq a b = false -> py_eq b a = false.
Proof.
  destruct a, b; intros Ha Hb; simpl in *; try discriminate; try reflexivity;
    try (rewrite Z.eqb_sym; tauto).
  - by destruct b, b0.
  - rewrite !String.eqb_neq. congruence.
Qed.

Lemma kd_index_None_lookup d k i key item :
  kd_index d k = None -> d !! i = Some (key, item) -> py_eq key k = false.
Proof.
  revert i. induction d as [ | [k' it'] d IH ]; intros i; simpl; [discriminate | ].
  destruct (py_eq k' k) eqn:E; [discriminate | ].
  destruct (kd_index d k) eqn:Hd; [discriminate | ]. intros _.
  destruct i as [ | i ]; simpl.
  - intros H. inversion H; subst. exact E.
  - by apply IH.
Qed.

Lemma kd_set_replace d k item : forall i key old,
  keyed_wf d -> d !! i = Some (key, old) -> py_eq key k = true ->
  kd_set d k item = <[i:=(key, item)]> d.
Proof.
  induction d as [ | [k0 it0] d IH ]; intros i key old Hwf Hi Hk; [discriminate | ].
  destruct Hwf as (Hh & _ & Hfresh & Hwf). destruct i as [ | i ]; simpl in *.
  - inversion Hi; subst. by rewrite Hk.
  - assert (E : py_eq k0 k = false).
    { destruct (py_eq k0 k) eqn:E; [ | reflexivity].
      pose proof (kd_index_None_lookup d k0 i key old Hfresh Hi) as Hne.
      rewrite (py_eq_common key k0 k Hh Hk E) in Hne. discriminate. }
    rewrite E. f_equal. by apply (IH i key old).
Qed.

Lemma kd_set_lookup d k item :
  py_eq k k = true ->
  exists j, kd_index (kd_set d k item) k = Some j /\
            (snd <$> kd_set d k item) !! j = Some item.
Proof.
  intros Hk. induction d as [ | [k0 it0] d (j & Hj & Hl) ]; simpl.
  - rewrite Hk. by exists 0%nat.
  - destruct (py_eq k0 k) eqn:E; simpl; rewrite E.
    + by exists 0%nat.
    + rewrite Hj. by exists (S j).
Qed.

Lemma kd_index_set_other d k item k' :
  hashable k = true -> hashable k' = true -> py_eq k' k = false ->
  kd_index d k' = None -> kd_index (kd_set d k item) k' = None.
Proof.
  intros Hk Hk' Hne. induction d as [ | [k0 it0] d IH ]; simpl.
  - intros _. by rewrite (py_eq_sym_false k' k Hk' Hk Hne).
  - destruct (py_eq k0 k') eqn:E; [discriminate | ].
    destruct (kd_index d k') eqn:Hd; [discriminate | ]. intros _.
    destruct (py_eq k0 k); simpl; rewrite E; [by rewrite Hd | by rewrite IH].
Qed.

(** [insert_one] keeps a keyed store well formed. *)
Lemma kd_set_keeps_keyed_wf d k item :
  hashable k = true -> py_eq k (get item "_id") = true ->
  keyed_wf d -> keyed_wf (kd_set d k item).
Proof.
  intros Hk Hid. induction d as [ | [k0 it0] d IH ]; simpl.
  - intros _. repeat split; assumption.
  - intros (Hh & Hid0 & Hfresh & Hwf).
    destruct (py_eq k0 k) eqn:E; simpl.
    + repeat split; try assumption. by apply (py_eq_chain k0 k).
    + repeat split; try assumption; [ | by apply IH].
      by apply kd_index_set_other.
Qed.

Lemma find_one_by_id_keyed d k :
  hashable k = true ->
  find_one (DictStore d) [("_id", k)] = Ok (j ← kd_index d k; (snd <$> d) !! j).
Proof. intros Hk. unfold find_one, find_one_ref. simpl. by rewrite Hk. Qed.

(** C1 (amended). On a keyed store, [insert_one] of a document whose [_id]
    is [k] returns normally with [inserted_id] equal to [k], and
    [find_one({_id: k})] then returns the inserted document.  When the
    store files every document under its own [_id] ([keyed_wf], which
    [insert_one] keeps) and holds a document whose [_id] equals [k], that
    document is replaced where it stands: no error, no second entry, every
    other entry untouched.  (A store is keyed by the [_id] that a document
    had when it was inserted; after [$set] has given a document another
    [_id], a document inserted with that [_id] is a second entry.)  From the empty
    keyed store, after [insert_one({_id: "A", x: 1})] the query [{_id: "A"}]
    finds [{_id: "A", x: 1}], and after [insert_one({_id: "A", x: 2})] it
    finds [{_id: "A", x: 2}], the only document of the store. *)
Theorem insert_one_keyed_overwrites :
  (forall d document k,
      dict_get document "_id" = Some k ->
      hashable k = true ->
      exists d',
        insert_one document (DictStore d) = (Ok {| inserted_id := k |}, DictStore d') /\
        find_one (DictStore d') [("_id", k)] = Ok (Some document))
  /\ (forall d document k i key old,
        keyed_wf d ->
        dict_get document "_id" = Some k ->
        hashable k = true ->
        d !! i = Some (key, old) ->
        py_eq (get old "_id") k = true ->
        insert_one document (DictStore d)
        = (Ok {| inserted_id := k |}, DictStore (<[i:=(key, document)]> d)) /\
        keyed_wf (<[i:=(key, document)]> d))
  /\ (insert_one doc_A_x1 (DictStore [])
      = (Ok {| inserted_id := VStr "A" |}, DictStore [(VStr "A", doc_A_x1)]) /\
      find_one (DictStore [(VStr "A", doc_A_x1)]) [("_id", VStr "A")]
      = Ok (Some doc_A_x1) /\
      insert_one doc_A_x2 (DictStore [(VStr "A", doc_A_x1)])
      = (Ok {| inserted_id := VStr "A" |}, DictStore [(VStr "A", doc_A_x2)]) /\
      find_one (DictStore [(VStr "A", doc_A_x2)]) [("_id", VStr "A")]
      = Ok (Some doc_A_x2) /\
      store_values (DictStore [(VStr "A", doc_A_x2)]) = [doc_A_x2]).
Proof.
  split; [ | split; [ | repeat split]].
  - intros d document k Hid Hk. exists (kd_set d k document).
    unfold insert_one, get. rewrite Hid, Hk. split; [reflexivity | ].
    rewrite find_one_by_id_keyed by assumption.
    destruct (kd_set_lookup d k document (py_eq_refl_hashable k Hk)) as (j & Hj & Hl).
    rewrite Hj. simpl. by rewrite Hl.
  - intros d document k i key old Hwf Hid Hk Hi Hold.
    assert (Hkey : py_eq key k = true).
    { assert (H : hashable key = true /\ py_eq key (get old "_id") = true).
      { clear -Hwf Hi. revert i Hi.
        induction d as [ | [k0 it0] d IH ]; intros i Hi; [discriminate | ].
        destruct Hwf as (Hh & Hid0 & _ & Hwf). destruct i as [ | i ]; simpl in Hi.
        - inversion Hi; subst. by split.
        - by apply (IH Hwf i). }
      destruct H as [Hh Hown]. by apply (py_eq_chain key (get old "_id")). }
    rewrite <- (kd_set_replace d k document i key old Hwf Hi Hkey).
    unfold insert_one, get. rewrite Hid, Hk. split; [reflexivity | ].
    apply kd_set_keeps_keyed_wf; try assumption.
    unfold get. rewrite Hid. by apply py_eq_refl_hashable.
Qed.

Lemma insert_one_keyed_overwrites_witness :
  insert_one doc_A_x2 (DictStore [(VStr "B", [("_id", VStr "B")]); (VStr "A", doc_A_x1)])
  = (Ok {| inserted_id := VStr "A" |},
     DictStore [(VStr "B", [("_id", VStr "B")]); (VStr "A", doc_A_x2)]).
Proof.
  destruct insert_one_keyed_overwrites as (_ & H & _).
  apply (H [(VStr "B", [("_id", VStr "B")]); (VStr "A", doc_A_x1)] doc_A_x2
           (VStr "A") 1%nat (VStr "A") doc_A_x1); try reflexivity.
  simpl. repeat split.
Defined.

(** ** Where the operations raise, and where they cannot *)

(** A range query on a field that the document lacks, with a numeric
    bound, compares the empty string with a number; [$in] with an operand
    that is no container tests membership in it; a keyed store hashes the
    [_id] of the query, and reads the [_id] of the document that it is
    given; [$push] calls [append] on what the field holds. *)
Lemma store_operations_raise :
  find (ListStore [doc_A_x1]) (Some [("age", VDict [("$gte", VInt 18)])])
  = Raise TypeError /\
  count_documents (ListStore [doc_A_x1]) [("age", VDict [("$gte", VInt 18)])]
  = Raise TypeError /\
  find (ListStore [doc_A_x1]) (Some [("x", VDict [("$in", VInt 1)])])
  = Raise TypeError /\
  find_one (DictStore [(VStr "A", doc_A_x1)]) [("_id", VDict [("$in", VList [VStr "A"])])]
  = Raise TypeError /\
  insert_one [("x", VInt 1)] (DictStore []) = (Raise KeyError, DictStore []) /\
  update_one [("_id", VStr "A")] [("$push", VDict [("x", VInt 2)])]
    (DictStore [(VStr "A", doc_A_x1)])
  = (Raise AttributeError, DictStore [(VStr "A", doc_A_x1)]).
Proof. repeat split. Qed.

Lemma py_cmp_comparable op v w :
  comparable v w = true -> exists b, py_cmp op v w = Ok b.
Proof.
  destruct v, w; simpl; try discriminate; intros _; eexists; reflexivity.
Qed.

Lemma clause_total item key value :
  clause_typed item key value = true -> exists b, clause item key value = Ok b.
Proof.
  unfold clause_typed, clause.
  destruct (String.prefix "$" key); [intros _; by eexists | ].
  destruct value as [ | | | | | ops ]; try (intros _; by eexists).
  destruct (dict_get ops "$in") as [vs | ].
  - destruct vs as [ | | | | l | ]; try discriminate. intros _.
    destruct (get item key); simpl; by eexists.
  - destruct (dict_get ops "$gte") as [bound | ].
    + intros Hc. destruct (py_cmp_comparable Lt _ _ Hc) as [b Hb].
      unfold py_lt. rewrite Hb. by eexists.
    + destruct (dict_get ops "$lte") as [bound | ]; [ | intros _; by eexists].
      intros Hc. destruct (py_cmp_comparable Gt _ _ Hc) as [b Hb].
      unfold py_gt. rewrite Hb. by eexists.
Qed.

Lemma matches_total item query :
  forallb (fun kv => clause_typed item (fst kv) (snd kv)) query = true ->
  exists b, _matches item query = Ok b.
Proof.
  rewrite <- matches_loop_matches.
  induction query as [ | [key value] rest IH ]; simpl; [by eexists | ].
  intros [Hc Hrest]%andb_prop.
  destruct (clause_total item key value Hc) as [[ | ] Hb]; rewrite Hb; simpl;
    [by apply IH | by eexists].
Qed.

Lemma find_loop_total items query :
  forallb (fun item => forallb (fun kv => clause_typed item (fst kv) (snd kv)) query)
    items = true ->
  exists results, find_loop items query = Ok results.
Proof.
  induction items as [ | item rest IH ]; simpl; [by eexists | ].
  intros [Hitem Hrest]%andb_prop.
  destruct (matches_total item query Hitem) as [b Hb].
  destruct (IH Hrest) as [results Hr].
  rewrite Hb, Hr. by eexists.
Qed.

Lemma first_index_total {A} (q : A -> bool) (f : A -> result bool) l :
  (forall x, q x = true -> exists b, f x = Ok b) ->
  forallb q l = true ->
  exists r, first_index f l = Ok r.
Proof.
  intros Hf. induction l as [ | x l IH ]; simpl; [by eexists | ].
  intros [Hx Hl]%andb_prop.
  destruct (Hf x Hx) as [[ | ] Hb]; rewrite Hb; simpl; [by eexists | ].
  destruct (IH Hl) as [r Hr]. rewrite Hr. by eexists.
Qed.

Lemma find_one_ref_total self query :
  query_typed self query = true -> id_typed self query = true ->
  exists r, find_one_ref self query = Ok r.
Proof.
  unfold query_typed, id_typed, find_one_ref. intros Hq Hid.
  destruct (first_index_total _ (fun item => _matches item query)
              (store_values self) (fun item => matches_total item query) Hq)
    as [scan Hscan].
  rewrite Hscan.
  destruct (dict_get query "_id") as [qid | ]; [ | by eexists].
  destruct self as [l | d].
  - destruct (first_index_total (fun _ => true)
                (fun item => Ok (py_eq (get item "_id") qid)) l) as [r Hr].
    + intros x _. by eexists.
    + apply forallb_forall. reflexivity.
    + rewrite Hr. simpl. destruct r; by eexists.
  - rewrite Hid. by eexists.
Qed.

Lemma push_all_total (p : dict) : forall item,
  forallb (fun kv => pushable (dict_get item (fst kv))) p = true ->
  exists item', mfor p (fun kv => push_one (fst kv) (snd kv)) item = (Ok tt, item').
Proof.
  induction p as [ | [key0 x0] p IH ]; intros item; simpl; [by eexists | ].
  intros [Hkey0 Hrest]%andb_prop.
  destruct (push_one_spec key0 x0 item Hkey0) as (item1 & Hrun & Hkey & Hother).
  destruct (IH item1) as [item' Hrun'].
  - apply forallb_forall. intros [key x] Hin. simpl.
    destruct (String.eqb_spec key0 key) as [<- | Hne].
    + by rewrite Hkey.
    + rewrite (Hother key Hne).
      by apply (proj1 (forallb_forall _ _) Hrest (key, x)).
  - exists item'. unfold mbind. by rewrite Hrun.
Qed.

Lemma update_item_total update item m p :
  operand update "$set" = Some m ->
  operand update "$push" = Some p ->
  forallb (fun kv => pushable (dict_get (dict_update item m) (fst kv))) p = true ->
  exists item', update_item update item = (Ok tt, item').
Proof.
  intros Hset Hpush Hok.
  destruct (push_all_total p (dict_update item m) Hok) as [item' Hrun].
  exists item'. unfold update_item, mbind, apply_set, apply_push.
  unfold operand in Hset, Hpush.
  destruct (dict_get update "$set") as [[ | | | | | m'] | ]; inversion Hset; subst;
    destruct (dict_get update "$push") as [[ | | | | | p'] | ]; inversion Hpush; subst;
    exact Hrun.
Qed.

Lemma insert_one_total self document :
  insertable self document = true ->
  exists self',
    insert_one document self = (Ok {| inserted_id := get document "_id" |}, self') /\
    (forall doc, insertable self' doc = insertable self doc).
Proof.
  unfold insertable, insert_one. destruct self as [l | d].
  - intros _. by eexists.
  - destruct (dict_get document "_id") as [k | ]; [ | discriminate].
    intros ->. by eexists.
Qed.

Lemma insert_many_total documents : forall self,
  forallb (insertable self) documents = true ->
  exists self', insert_many documents self = (Ok tt, self').
Proof.
  unfold insert_many.
  induction documents as [ | document rest IH ]; intros self; simpl; [by eexists | ].
  intros [Hdoc Hrest]%andb_prop.
  destruct (insert_one_total self document Hdoc) as (self1 & Hrun & Hkind).
  destruct (IH self1) as [self' Hrun'].
  - apply forallb_forall. intros doc Hin. rewrite Hkind.
    by apply (proj1 (forallb_forall _ _) Hrest).
  - exists self'. unfold mbind at 1 2. rewrite Hrun. unfold mret at 1. exact Hrun'.
Qed.

Lemma find_loop_nothing items query :
  Forall (fun item => _matches item query = Ok false) items ->
  find_loop items query = Ok [].
Proof.
  induction 1 as [ | item rest Hitem _ IH ]; simpl; [reflexivity | ].
  by rewrite Hitem, IH.
Qed.

(** C9 (amended). The operations return normally, and never raise, on
    every state of the collection and every argument such that: in the
    query, each [$in] has a list for operand and each deciding [$gte] or
    [$lte] bound is a number compared with a number or a string compared
    with a string, an absent field counting as a string ([query_typed]); on
    a keyed store the [_id] of a [find_one] or [update_one] query is
    hashable ([id_typed]) and an inserted document has a hashable [_id]
    ([insertable]); in an update descriptor the operands of [$set] and
    [$push] are mappings and the fields named in [$push] are, after [$set],
    absent or lists ([update_typed]).  When no document satisfies the
    query, [find] returns the empty list, [count_documents] returns 0 and,
    for a query without [_id], [find_one] returns [None]. *)
Theorem store_operations_total_when_typed :
  (forall self, exists results, find self None = Ok results)
  /\ (forall self query,
        query_typed self query = true ->
        (exists results, find self (Some query) = Ok results) /\
        (exists n, count_documents self query = Ok n) /\
        (id_typed self query = true ->
         (exists r, find_one self query = Ok r) /\
         (forall update,
             update_typed self update = true ->
             exists self', update_one query update self = (Ok tt, self'))))
  /\ (forall self document,
        insertable self document = true ->
        exists self',
          insert_one document self
          = (Ok {| inserted_id := get document "_id" |}, self'))
  /\ (forall self documents,
        forallb (insertable self) documents = true ->
        exists self', insert_many documents self = (Ok tt, self'))
  /\ (forall self query,
        Forall (fun item => _matches item query = Ok false) (store_values self) ->
        find self (Some query) = Ok [] /\
        count_documents self query = Ok 0%nat /\
        (dict_contains query "_id" = false -> find_one self query = Ok None)).
Proof.
  split; [ | split; [ | split; [ | split]]].
  - intros self. exists (store_values self). apply find_loop_all.
  - intros self query Hq.
    destruct (find_loop_total (store_values self) query Hq) as [results Hfind].
    split; [by exists results | ].
    split; [exists (length results); unfold count_documents, find; by rewrite Hfind | ].
    intros Hid. destruct (find_one_ref_total self query Hq Hid) as [r Hr].
    split; [unfold find_one; rewrite Hr; by eexists | ].
    intros update Hu. unfold update_one. rewrite Hr.
    destruct r as [i | ]; [ | by eexists].
    destruct (store_values self !! i) as [item | ] eqn:Hi; [ | by eexists].
    destruct (truthy item); [ | by eexists].
    unfold update_typed in Hu.
    destruct (operand update "$set") as [m | ] eqn:Hset; [ | discriminate].
    destruct (operand update "$push") as [p | ] eqn:Hpush; [ | discriminate].
    destruct (update_item_total update item m p Hset Hpush) as [item' Hrun].
    + apply (proj1 (forallb_forall _ _) Hu item).
      apply list_elem_of_In, list_elem_of_lookup. by exists i.
    + rewrite Hrun. by eexists.
  - intros self document Hdoc.
    destruct (insert_one_total self document Hdoc) as (self' & Hrun & _).
    by exists self'.
  - intros self documents. apply insert_many_total.
  - intros self query Hall.
    assert (Hfind : find self (Some query) = Ok []) by by apply find_loop_nothing.
    split; [exact Hfind | ].
    split; [unfold count_documents; by rewrite Hfind | ].
    intros Hid. unfold find_one, find_one_ref. unfold dict_contains in Hid.
    destruct (dict_get query "_id"); [discriminate | ].
    by rewrite (first_index_none _ _ Hall).
Qed.

Lemma store_operations_total_when_typed_witness :
  (exists results,
      find (ListStore [doc_A_x1]) (Some [("x", VDict [("$gte", VInt 18)])])
      = Ok results) /\
  (exists self',
      update_one [("x", VDict [("$gte", VInt 0)])] [("$push", VDict [("tags", VInt 2)])]
        (ListStore [doc_A_x1])
      = (Ok tt, self')) /\
  (exists self', insert_many [doc_A_x1; doc_A_x2] (DictStore []) = (Ok tt, self')).
Proof.
  destruct store_operations_total_when_typed as (_ & Hq & _ & Hmany & _).
  split; [ | split].
  - apply (Hq (ListStore [doc_A_x1]) [("x", VDict [("$gte", VInt 18)])]). reflexivity.
  - destruct (Hq (ListStore [doc_A_x1]) [("x", VDict [("$gte", VInt 0)])] eq_refl)
      as (_ & _ & Hid).
    destruct (Hid eq_refl) as [_ Hupd]. apply Hupd. reflexivity.
  - apply Hmany. reflexivity.
Defined.

(** * Limits of the stated properties *)

(** ** A rewritten [_id] *)

(** From the empty keyed store: a document is inserted with [_id] "A",
    [$set] gives it the [_id] "B", and a document with [_id] "B" is
    inserted.  The store then holds two documents whose [_id] is "B": the
    first has not been replaced. *)
Lemma insert_after_id_rewrite_adds_a_document :
  insert_one doc_A (DictStore [])
  = (Ok {| inserted_id := VStr "A" |}, DictStore [(VStr "A", doc_A)]) /\
  update_one [("_id", VStr "A")] [("$set", VDict [("_id", VStr "B")])]
    (DictStore [(VStr "A", doc_A)])
  = (Ok tt, DictStore [(VStr "A", doc_A_as_B)]) /\
  insert_one doc_B_x2 (DictStore [(VStr "A", doc_A_as_B)])
  = (Ok {| inserted_id := VStr "B" |},
     DictStore [(VStr "A", doc_A_as_B); (VStr "B", doc_B_x2)]) /\
  find (DictStore [(VStr "A", doc_A_as_B); (VStr "B", doc_B_x2)])
    (Some [("_id", VStr "B")])
  = Ok [doc_A_as_B; doc_B_x2] /\
  count_documents (DictStore [(VStr "A", doc_A_as_B); (VStr "B", doc_B_x2)])
    [("_id", VStr "B")]
  = Ok 2%nat.
Proof. repeat split. Qed.

(** ** An empty document *)

(** The empty document of a list-backed store satisfies the empty query
    and is what [find_one] returns; [update_one] leaves it empty: the field
    named in [$push] is not created. *)
Lemma push_skips_the_empty_document :
  insert_one [] (ListStore []) = (Ok {| inserted_id := VNone |}, ListStore [[]]) /\
  find_one (ListStore [[]]) [] = Ok (Some []) /\
  update_one [] [("$push", VDict [("tags", VStr "x")])] (ListStore [[]])
  = (Ok tt, ListStore [[]]) /\
  dict_get [] "tags" = None.
Proof. repeat split. Qed.

(** ** NaN *)

Lemma fdict_get_plain d k : fdict_get (plain d) k = Plain <$> dict_get d k.
Proof.
  induction d as [ | [k' v] d IH ]; simpl; [reflexivity | ].
  by destruct (String.eqb k' k).
Qed.

(** On documents and operator documents without floats, [range_clause] is
    the clause of [_matches]. *)
Lemma range_clause_plain item key ops :
  String.prefix "$" key = false ->
  dict_get ops "$in" = None ->
  clause item key (VDict ops) = range_clause (plain item) key (plain ops).
Proof.
  intros Hkey Hin. unfold clause, range_clause, fget_default, get_default.
  rewrite Hkey, Hin, !fdict_get_plain.
  destruct (dict_get ops "$gte") as [bound | ]; simpl.
  - by destruct (dict_get item key).
  - destruct (dict_get ops "$lte") as [bound | ]; simpl; [ | reflexivity].
    by destruct (dict_get item key).
Qed.

(** On documents and queries without floats, [range_matches] is
    [_matches]. *)
Lemma range_matches_plain item query :
  Forall (fun kv : string * dict => dict_get (snd kv) "$in" = None) query ->
  _matches item (operator_query query) = range_matches (plain item) (plain_query query).
Proof.
  intros Hq.
  assert (Hloop : matches_loop item (operator_query query)
                  = range_loop (plain item) (plain_query query)).
  { induction Hq as [ | [key ops] rest Hin _ IH ]; [reflexivity | ].
    simpl in Hin. simpl.
    destruct (String.prefix "$" key) eqn:Hkey.
    - unfold clause. rewrite Hkey. simpl. exact IH.
    - rewrite (range_clause_plain item key ops Hkey Hin).
      destruct (range_clause (plain item) key (plain ops)) as [[] | e]; simpl;
        [exact IH | reflexivity | reflexivity]. }
  unfold _matches, range_matches. destruct query as [ | kv rest ]; [reflexivity | ].
  exact Hloop.
Qed.



(** * More of the store *)

(** ** What [find] and [find_one] return *)

Lemma find_loop_filter items query results :
  find_loop items query = Ok results <->
  Forall (evaluates query) items /\ results = List.filter (satisfies query) items.
Proof.
  revert results. induction items as [ | item rest IH ]; intros results; simpl.
  - split.
    + intros H. inversion H. split; [constructor | reflexivity].
    + intros [_ ->]. reflexivity.
  - unfold satisfies at 1, evaluates. rewrite Forall_cons.
    destruct (_matches item query) as [b | e] eqn:Hm; simpl.
    + destruct (find_loop rest query) as [rs | e] eqn:Hr; simpl.
      * destruct (proj1 (IH rs) eq_refl) as [Hall ->]. split.
        -- intros H. inversion H. split; [split; [by exists b | exact Hall] | ].
           by destruct b.
        -- intros [_ ->]. by destruct b.
      * split; [discriminate | ]. intros [[_ Hall] _].
        pose proof (proj2 (IH _) (conj Hall eq_refl)) as H. discriminate H.
    + split; [discriminate | ]. intros [[[b Hb] _] _]. discriminate Hb.
Qed.

(** X1. [find(query)] returns normally exactly when the query evaluates on
    every document of the store, and then it returns the documents that
    satisfy the query, each once, in the iteration order of the store. *)
Theorem find_returns_the_matching_documents :
  forall self query results,
    find self (Some query) = Ok results <->
    Forall (evaluates query) (store_values self) /\
    results = List.filter (satisfies query) (store_values self).
Proof. intros self query results. apply find_loop_filter. Qed.

Lemma find_returns_the_matching_documents_witness :
  [doc_A_x2] = List.filter (satisfies [("x", VInt 2)])
                 (store_values (DictStore [(VStr "A", doc_A_x1); (VStr "B", doc_A_x2)])).
Proof.
  apply (find_returns_the_matching_documents
           (DictStore [(VStr "A", doc_A_x1); (VStr "B", doc_A_x2)])
           [("x", VInt 2)] [doc_A_x2]).
  reflexivity.
Defined.

Lemma first_index_filter items query rs :
  find_loop items query = Ok rs ->
  (r <~ first_index (fun item => _matches item query) items ;;
   Ok (i ← r; items !! i))
  = Ok (head rs).
Proof.
  revert rs. induction items as [ | item rest IH ]; intros rs; simpl.
  - intros H. by inversion H.
  - destruct (_matches item query) as [[ | ] | e]; simpl; try discriminate.
    + destruct (find_loop rest query); simpl; [ | discriminate].
      intros H. by inversion H.
    + destruct (find_loop rest query) as [rs' | e]; simpl; [ | discriminate].
      intros H. inversion H; subst. specialize (IH rs eq_refl).
      destruct (first_index (fun item => _matches item query) rest) as [[i | ] | e];
        simpl in *; try discriminate; exact IH.
Qed.

(** X2. For a query without an [_id] clause on which [find] returns,
    [find_one] returns the first document of [find], and [None] when
    [find] returns nothing. *)
Theorem find_one_is_head_of_find :
  forall self query results,
    dict_contains query "_id" = false ->
    find self (Some query) = Ok results ->
    find_one self query = Ok (head results).
Proof.
  intros self query results Hid Hfind. unfold find_one, find_one_ref.
  unfold dict_contains in Hid. destruct (dict_get query "_id"); [discriminate | ].
  by apply first_index_filter.
Qed.

Lemma find_one_is_head_of_find_witness :
  find_one (ListStore [doc_A_x1; doc_A_x2]) [("x", VInt 2)] = Ok (head [doc_A_x2]).
Proof. apply find_one_is_head_of_find; reflexivity. Defined.

(** ** Clauses *)

Lemma py_eq_None v : py_eq VNone v = true <-> v = VNone.
Proof. destruct v; simpl; split; congruence. Qed.

(** X3. A clause [{f: v}] whose value [v] is no dictionary matches exactly
    the documents whose field [f] equals [v] under [==], a document without
    field [f] reading as [None]: such a document matches [{f: None}] and no
    other literal. *)
Theorem literal_clause_semantics :
  forall item f v,
    String.prefix "$" f = false ->
    (forall ops, v <> VDict ops) ->
    _matches item [(f, v)] = Ok (py_eq (get item f) v) /\
    (dict_get item f = None ->
     (_matches item [(f, v)] = Ok true <-> v = VNone)).
Proof.
  intros item f v Hf Hv.
  assert (H : _matches item [(f, v)] = Ok (py_eq (get item f) v)).
  { rewrite matches_single. unfold clause. rewrite Hf.
    destruct v; try reflexivity. by destruct (Hv d). }
  split; [exact H | ].
  intros Habsent. rewrite H. unfold get. rewrite Habsent.
  rewrite <- py_eq_None. split; congruence.
Qed.

Lemma literal_clause_semantics_witness :
  _matches doc_A_x1 [("deleted_at", VNone)] = Ok true.
Proof.
  destruct (literal_clause_semantics doc_A_x1 "deleted_at" VNone eq_refl) as [_ H].
  - discriminate.
  - by apply H.
Defined.

Lemma compare_empty_l (s : string) : String.compare "" s <> Datatypes.Gt.
Proof. by destruct s. Qed.

(** X4. A document without field [f] is compared as the empty string: it
    matches [{f: {$lte: b}}] for every string [b], it matches
    [{f: {$gte: b}}] only for the empty string [b], and with a bound that
    is a number either clause raises [TypeError]. *)
Theorem absent_field_range_clause :
  forall item f,
    String.prefix "$" f = false ->
    dict_get item f = None ->
    (forall b : string, _matches item [(f, VDict [("$lte", VStr b)])] = Ok true) /\
    (forall b : string,
        _matches item [(f, VDict [("$gte", VStr b)])] = Ok (String.eqb b "")) /\
    (forall n : Z,
        _matches item [(f, VDict [("$gte", VInt n)])] = Raise TypeError /\
        _matches item [(f, VDict [("$lte", VInt n)])] = Raise TypeError).
Proof.
  intros item f Hf Habsent.
  assert (Hv : get_default item f (VStr "") = VStr "")
    by (unfold get_default; by rewrite Habsent).
  split; [ | split].
  - intros b. rewrite matches_single. unfold clause. rewrite Hf. simpl.
    rewrite Hv. simpl. by destruct b.
  - intros b. rewrite matches_single. unfold clause. rewrite Hf. simpl.
    rewrite Hv. simpl. by destruct b.
  - intros n. rewrite !matches_single. unfold clause. rewrite Hf. simpl.
    rewrite Hv. by split.
Qed.

Lemma absent_field_range_clause_witness :
  _matches doc_A_x1 [("expiration_date", VDict [("$lte", VStr "2020-01-01")])]
  = Ok true.
Proof.
  destruct (absent_field_range_clause doc_A_x1 "expiration_date" eq_refl eq_refl)
    as [H _].
  apply H.
Defined.

(** X13. Whether a document satisfies a query does not depend on the order
    of the clauses of the query. *)
Theorem satisfaction_ignores_clause_order :
  forall item (query query' : dict),
    Permutation query query' ->
    (_matches item query = Ok true <-> _matches item query' = Ok true).
Proof.
  intros item query query' Hperm.
  rewrite <- !matches_loop_matches, !matches_loop_true.
  by rewrite Hperm.
Qed.

Lemma satisfaction_ignores_clause_order_witness :
  _matches doc_A_x1 [("x", VInt 1); ("_id", VStr "A")] = Ok true.
Proof.
  apply (satisfaction_ignores_clause_order doc_A_x1
           [("_id", VStr "A"); ("x", VInt 1)]).
  - apply perm_swap.
  - reflexivity.
Defined.

(** ** Inserting *)

Lemma first_index_app_found {A} (p : A -> result bool) l l' i :
  first_index p l = Ok (Some i) -> first_index p (l ++ l') = Ok (Some i).
Proof.
  revert i. induction l as [ | x l IH ]; intros i; simpl; [discriminate | ].
  destruct (p x) as [[ | ] | e]; simpl; try discriminate; [done | ].
  destruct (first_index p l) as [[j | ] | e]; simpl; try discriminate.
  intros H. by rewrite (IH j eq_refl).
Qed.

Lemma first_index_app_none {A} (p : A -> result bool) l l' :
  first_index p l = Ok None ->
  first_index p (l ++ l') = rmap (fmap (fun i => length l + i)%nat) (first_index p l').
Proof.
  induction l as [ | x l IH ]; simpl.
  - intros _. destruct (first_index p l') as [[i | ] | e]; reflexivity.
  - destruct (p x) as [[ | ] | e]; simpl; try discriminate.
    destruct (first_index p l) as [[j | ] | e]; simpl; try discriminate.
    intros _. rewrite IH by reflexivity.
    destruct (first_index p l') as [[i | ] | e]; reflexivity.
Qed.

Lemma first_index_exists {A} (p : A -> bool) l :
  existsb p l = true -> exists i, first_index (fun x => Ok (p x)) l = Ok (Some i).
Proof.
  induction l as [ | x l IH ]; simpl; [discriminate | ].
  destruct (p x); simpl; [by eexists | ].
  intros H. destruct (IH H) as [i Hi]. rewrite Hi. by eexists.
Qed.

Lemma first_index_not_exists {A} (p : A -> bool) l :
  existsb p l = false -> first_index (fun x => Ok (p x)) l = Ok None.
Proof.
  induction l as [ | x l IH ]; simpl; [reflexivity | ].
  destruct (p x); simpl; [discriminate | ].
  intros H. by rewrite (IH H).
Qed.

Lemma find_one_ref_of_find_one self query item :
  find_one self query = Ok (Some item) ->
  exists i, find_one_ref self query = Ok (Some i) /\ store_values self !! i = Some item.
Proof.
  unfold find_one.
  destruct (find_one_ref self query) as [[i | ] | e]; simpl; try discriminate.
  intros H. exists i. split; [reflexivity | congruence].
Qed.

(** X5. A list-backed store keeps every document that it is given, and a
    later insert never changes what [find_one] finds: for a query without
    an [_id] clause, or with an [_id] that a stored document has,
    [find_one] returns after [insert_one] the document that it returned
    before.  A second document with the [_id] of a first is stored behind
    it and is not the one that [find_one] by that [_id] returns. *)
Theorem list_insert_keeps_earlier_answers :
  forall l document query item,
    dict_contains query "_id" = false \/
    (exists k, dict_get query "_id" = Some k /\
               existsb (fun it => py_eq (get it "_id") k) l = true) ->
    find_one (ListStore l) query = Ok (Some item) ->
    insert_one document (ListStore l)
    = (Ok {| inserted_id := get document "_id" |}, ListStore (l ++ [document])) /\
    find_one (ListStore (l ++ [document])) query = Ok (Some item).
Proof.
  intros l document query item Hq Hfind. split; [reflexivity | ].
  destruct (find_one_ref_of_find_one _ _ _ Hfind) as (i & Hr & Hi). simpl in Hi.
  apply (find_one_of_ref _ _ i); [ | by apply lookup_app_l_Some].
  revert Hr. unfold find_one_ref, dict_contains in *. simpl.
  destruct Hq as [Hq | (k & Hk & Hex)].
  - destruct (dict_get query "_id"); [discriminate | ].
    apply first_index_app_found.
  - rewrite Hk. destruct (first_index_exists _ _ Hex) as [j Hj].
    rewrite Hj. simpl. intros H. inversion H; subst.
    by rewrite (first_index_app_found _ l [document] i Hj).
Qed.

Lemma list_insert_keeps_earlier_answers_witness :
  find_one (ListStore ([doc_A_x1] ++ [doc_A_x2])) [("_id", VStr "A")]
  = Ok (Some doc_A_x1).
Proof.
  apply (list_insert_keeps_earlier_answers [doc_A_x1] doc_A_x2 [("_id", VStr "A")]
           doc_A_x1).
  - right. exists (VStr "A"). by split.
  - reflexivity.
Defined.

(** X6. On a list-backed store in which no document has the [_id] [k], a
    hashable value, a document inserted with that [_id] is the one that
    [find_one({_id: k})] returns. *)
Theorem list_insert_then_find_one :
  forall l document k,
    dict_get document "_id" = Some k ->
    hashable k = true ->
    existsb (fun it => py_eq (get it "_id") k) l = false ->
    find_one (snd (insert_one document (ListStore l))) [("_id", k)]
    = Ok (Some document).
Proof.
  intros l document k Hid Hk Hfresh. simpl.
  apply (find_one_of_ref _ _ (length l)).
  - unfold find_one_ref. simpl.
    rewrite (first_index_app_none _ l [document]) by by apply first_index_not_exists.
    simpl. unfold get. rewrite Hid, (py_eq_refl_hashable k Hk). simpl.
    by rewrite Nat.add_0_r.
  - simpl. by apply list_lookup_middle.
Qed.

Lemma list_insert_then_find_one_witness :
  find_one (snd (insert_one doc_A_x1 (ListStore [[("_id", VStr "B")]])))
    [("_id", VStr "A")]
  = Ok (Some doc_A_x1).
Proof. by apply list_insert_then_find_one. Defined.

Lemma mfor_cons {S A} (x : A) (xs : list A) (body : A -> M S unit) (s : S) :
  mfor (x :: xs) body s =
    match body x s with
    | (Ok _, s') => mfor xs body s'
    | (Raise e, s') => (Raise e, s')
    end.
Proof. reflexivity. Qed.

Lemma mfor_app {S A} (xs ys : list A) (body : A -> M S unit) (s : S) :
  mfor (xs ++ ys) body s =
    match mfor xs body s with
    | (Ok _, s') => mfor ys body s'
    | (Raise e, s') => (Raise e, s')
    end.
Proof.
  revert s. induction xs as [ | x xs IH ]; intros s; simpl; [reflexivity | ].
  unfold mbind. destruct (body x s) as [[[] | e] s']; [apply IH | reflexivity].
Qed.

(** X7. On a list-backed store [insert_many] never raises and appends the
    documents in the order given. *)
Theorem insert_many_list_appends :
  forall documents l,
    insert_many documents (ListStore l) = (Ok tt, ListStore (l ++ documents)).
Proof.
  unfold insert_many.
  induction documents as [ | document rest IH ]; intros l; simpl.
  - by rewrite app_nil_r.
  - unfold mbind. simpl. unfold mret. rewrite IH. by rewrite <- app_assoc.
Qed.

Lemma insert_one_kind document self :
  forall doc, insertable (snd (insert_one document self)) doc = insertable self doc.
Proof.
  intros doc. unfold insert_one. destruct self as [l | d]; [reflexivity | ].
  destruct (dict_get document "_id") as [k | ]; [ | reflexivity].
  by destruct (hashable k).
Qed.

Lemma insert_many_kind documents : forall self doc,
  insertable (snd (insert_many documents self)) doc = insertable self doc.
Proof.
  unfold insert_many.
  induction documents as [ | document rest IH ]; intros self doc; [reflexivity | ].
  simpl. unfold mbind at 1 2.
  pose proof (insert_one_kind document self doc) as Hk.
  destruct (insert_one document self) as [[res | e] self1]; simpl in *.
  - unfold mret at 1. by rewrite IH.
  - exact Hk.
Qed.

(** X8. [insert_many] is not all-or-nothing: when a document cannot be
    inserted (on a keyed store, a document without [_id] or with an
    unhashable [_id]), it raises, the documents before that one have been
    inserted and stay inserted, and the documents after it are not. *)
Theorem insert_many_stops_at_first_failure :
  forall good bad rest self self',
    insert_many good self = (Ok tt, self') ->
    insertable self bad = false ->
    exists e,
      (e = KeyError \/ e = TypeError) /\
      insert_many (good ++ bad :: rest) self = (Raise e, self').
Proof.
  intros good bad rest self self' Hgood Hbad.
  assert (Hbad' : insertable self' bad = false).
  { pose proof (insert_many_kind good self bad) as H. rewrite Hgood in H.
    simpl in H. congruence. }
  unfold insert_many in *. rewrite mfor_app, Hgood. simpl. unfold mbind.
  unfold insertable, insert_one in *. destruct self' as [l | d]; [discriminate | ].
  destruct (dict_get bad "_id") as [k | ].
  - rewrite Hbad'. exists TypeError. split; [by right | reflexivity].
  - exists KeyError. split; [by left | reflexivity].
Qed.

Lemma insert_many_stops_at_first_failure_witness :
  exists e,
    (e = KeyError \/ e = TypeError) /\
    insert_many ([doc_A_x1] ++ [("x", VInt 3)] :: [doc_A_x2]) (DictStore [])
    = (Raise e, DictStore [(VStr "A", doc_A_x1)]).
Proof.
  apply (insert_many_stops_at_first_failure [doc_A_x1] [("x", VInt 3)] [doc_A_x2]
           (DictStore []) (DictStore [(VStr "A", doc_A_x1)])); reflexivity.
Defined.

(** X9. A keyed store in which every document is filed under its own [_id],
    with no two keys equal, stays so under [insert_many], whether it
    returns or raises; the empty store is such a store. *)
Theorem insert_many_keeps_keyed_wf :
  forall documents d r self',
    keyed_wf d ->
    insert_many documents (DictStore d) = (r, self') ->
    exists d', self' = DictStore d' /\ keyed_wf d'.
Proof.
  unfold insert_many.
  induction documents as [ | document rest IH ]; intros d r self' Hwf; simpl.
  - intros H. inversion H. by exists d.
  - unfold mbind at 1 2. unfold insert_one.
    destruct (dict_get document "_id") as [k | ] eqn:Hid;
      [ | intros H; inversion H; by exists d].
    destruct (hashable k) eqn:Hk; [ | intros H; inversion H; by exists d].
    unfold mret at 1. apply IH.
    apply kd_set_keeps_keyed_wf; try assumption.
    unfold get. rewrite Hid. by apply py_eq_refl_hashable.
Qed.

Lemma insert_many_keeps_keyed_wf_witness :
  exists d',
    DictStore [(VStr "A", doc_A_x2)] = DictStore d' /\ keyed_wf d'.
Proof.
  apply (insert_many_keeps_keyed_wf [doc_A_x1; doc_A_x2] [] (Ok tt)
           (DictStore [(VStr "A", doc_A_x2)])); reflexivity.
Defined.

(** X14. [count_documents({})] is the number of documents of the store, and
    no count exceeds it. *)
Theorem count_documents_bounds :
  forall self,
    count_documents self [] = Ok (length (store_values self)) /\
    (forall query n,
        count_documents self query = Ok n -> n <= length (store_values self)).
Proof.
  intros self. unfold count_documents, find. split.
  - by rewrite find_loop_all.
  - intros query n.
    destruct (find_loop (store_values self) query) as [rs | e] eqn:Hf;
      simpl; [ | discriminate].
    apply find_loop_filter in Hf as [_ ->]. intros H. inversion H.
    apply List.filter_length_le.
Qed.

Lemma count_documents_bounds_witness :
  1 <= length (store_values (ListStore [doc_A_x1; doc_A_x2])).
Proof.
  destruct (count_documents_bounds (ListStore [doc_A_x1; doc_A_x2])) as [_ H].
  apply (H [("x", VDict [("$gte", VInt 2)]); ("_id", VStr "A")]).
  reflexivity.
Defined.

(** ** Updating *)

Lemma same_keys_put self i item : same_keys self (store_put self i item).
Proof.
  destruct self as [l | d]; simpl; [exact I | ].
  revert i. induction d as [ | kv d IH ]; intros [ | i ]; simpl; try reflexivity.
  f_equal. apply IH.
Qed.

Lemma same_keys_refl self : same_keys self self.
Proof. by destruct self. Qed.

Lemma update_one_cases query update self :
  snd (update_one query update self) = self \/
  exists i item', snd (update_one query update self) = store_put self i item'.
Proof.
  unfold update_one.
  destruct (find_one_ref self query) as [[i | ] | e]; try (by left).
  destruct (store_values self !! i) as [item | ]; [ | by left].
  destruct (truthy item); [ | by left].
  destruct (update_item update item) as [r item']. right. by exists i, item'.
Qed.

(** X10. [update_one] adds no document and removes none, whether it
    returns or raises: for every query and every update descriptor whose
    [$set], if it has one, is a mapping, the store has afterwards as many
    documents as before and a keyed store has the same keys in the same
    order.  There is no upsert. *)
Theorem update_one_adds_and_removes_nothing :
  forall query update self m,
    operand update "$set" = Some m ->
    let self' := snd (update_one query update self) in
    length (store_values self') = length (store_values self) /\
    same_keys self self'.
Proof.
  intros query update self m _ self'. subst self'.
  destruct (update_one_cases query update self) as [-> | (i & item' & ->)].
  - split; [reflexivity | apply same_keys_refl].
  - rewrite store_values_put. split; [apply length_insert | apply same_keys_put].
Qed.

Lemma update_one_adds_and_removes_nothing_witness :
  length (store_values
            (snd (update_one [("_id", VStr "B")]
                    [("$set", VDict [("y", VInt 0)]); ("$push", VDict [("x", VInt 2)])]
                    (DictStore [(VStr "A", doc_A_x1)]))))
  = length (store_values (DictStore [(VStr "A", doc_A_x1)])).
Proof.
  apply (update_one_adds_and_removes_nothing [("_id", VStr "B")]
           [("$set", VDict [("y", VInt 0)]); ("$push", VDict [("x", VInt 2)])]
           (DictStore [(VStr "A", doc_A_x1)]) [("y", VInt 0)]).
  reflexivity.
Defined.

(** X11. [update_one] is not all-or-nothing: when the first field named in
    [$push] holds, after [$set], a value that is no list, [update_one]
    raises [AttributeError] and the located document keeps what [$set]
    wrote. *)
Theorem update_one_keeps_set_when_push_raises :
  forall self query update m key v p i item x,
    find_one_ref self query = Ok (Some i) ->
    store_values self !! i = Some item ->
    truthy item = true ->
    operand update "$set" = Some m ->
    dict_get update "$push" = Some (VDict ((key, v) :: p)) ->
    dict_get (dict_update item m) key = Some x ->
    pushable (Some x) = false ->
    update_one query update self
    = (Raise AttributeError, store_put self i (dict_update item m)).
Proof.
  intros self query update m key v p i item x Hr Hi Ht Hset Hpush Hx Hbad.
  rewrite (update_one_located self query update i item Hr Hi Ht).
  assert (Hs : apply_set update item = (Ok tt, dict_update item m)).
  { unfold apply_set. unfold operand in Hset.
    destruct (dict_get update "$set") as [[ | | | | | m'] | ]; inversion Hset;
      reflexivity. }
  unfold update_item, mbind. rewrite Hs. unfold apply_push. rewrite Hpush.
  simpl. unfold mbind, push_one, dict_contains. rewrite Hx. simpl. rewrite Hx.
  by destruct x.
Qed.

Lemma update_one_keeps_set_when_push_raises_witness :
  update_one [("_id", VStr "A")]
    [("$set", VDict [("y", VInt 0)]); ("$push", VDict [("x", VInt 2)])]
    (DictStore [(VStr "A", doc_A_x1)])
  = (Raise AttributeError,
     store_put (DictStore [(VStr "A", doc_A_x1)]) 0
       (dict_update doc_A_x1 [("y", VInt 0)])).
Proof.
  apply (update_one_keeps_set_when_push_raises _ _ _ [("y", VInt 0)] "x" (VInt 2) []
           0%nat doc_A_x1 (VInt 1)); reflexivity.
Defined.

(** X12. A query with an [_id] clause is resolved by [find_one] on the
    [_id] alone, its other clauses being ignored: on a keyed store always,
    on a list-backed store as soon as a document has that [_id]. *)
Theorem find_one_by_id_ignores_other_clauses :
  forall self query qid,
    dict_get query "_id" = Some qid ->
    match self with
    | DictStore _ => True
    | ListStore l => existsb (fun it => py_eq (get it "_id") qid) l = true
    end ->
    find_one self query = find_one self [("_id", qid)].
Proof.
  intros self query qid Hid Hself. unfold find_one, find_one_ref.
  rewrite Hid. simpl. destruct self as [l | d]; [ | reflexivity].
  destruct (first_index_exists _ _ Hself) as [i Hi]. by rewrite Hi.
Qed.

Lemma find_one_by_id_ignores_other_clauses_witness :
  find_one (ListStore [doc_A_x1]) [("x", VInt 2); ("_id", VStr "A")]
  = find_one (ListStore [doc_A_x1]) [("_id", VStr "A")].
Proof. by apply find_one_by_id_ignores_other_clauses. Defined.

(** X15. On a keyed store a document is found under the key with which it
    was filed, whatever [$set] writes: after
    [update_one({_id: k}, {$set: m})] has updated the document filed under
    [k], [find_one({_id: k})] returns the updated document, also when [m]
    gives it another [_id], and every lookup by [_id] resolves to the
    position to which it resolved before. *)
Theorem keyed_lookup_follows_the_key :
  forall d k i key item m,
    hashable k = true ->
    kd_index d k = Some i ->
    d !! i = Some (key, item) ->
    truthy item = true ->
    exists self',
      update_one [("_id", k)] [("$set", VDict m)] (DictStore d) = (Ok tt, self') /\
      find_one self' [("_id", k)] = Ok (Some (dict_update item m)) /\
      (forall k', find_one_ref self' [("_id", k')]
                  = find_one_ref (DictStore d) [("_id", k')]).
Proof.
  intros d k i key item m Hk Hidx Hi Ht.
  assert (Hr : find_one_ref (DictStore d) [("_id", k)] = Ok (Some i)).
  { unfold find_one_ref. simpl. by rewrite Hk, Hidx. }
  assert (Hv : store_values (DictStore d) !! i = Some item).
  { simpl. rewrite list_lookup_fmap, Hi. reflexivity. }
  exists (store_put (DictStore d) i (dict_update item m)).
  rewrite (update_one_located _ _ _ i item Hr Hv Ht), update_item_set_only.
  split; [reflexivity | ].
  assert (Hsame : forall k', find_one_ref (store_put (DictStore d) i (dict_update item m))
                               [("_id", k')]
                             = find_one_ref (DictStore d) [("_id", k')]).
  { intros k'. unfold find_one_ref. simpl. by rewrite kd_index_alter_value. }
  split; [ | exact Hsame].
  apply (find_one_of_ref _ _ i).
  - by rewrite Hsame.
  - by apply (store_values_put_lookup _ i item).
Qed.

Lemma keyed_lookup_follows_the_key_witness :
  exists self',
    update_one [("_id", VStr "A")] [("$set", VDict [("_id", VStr "B")])]
      (DictStore [(VStr "A", doc_A_x1)])
    = (Ok tt, self') /\
    find_one self' [("_id", VStr "A")]
    = Ok (Some (dict_update doc_A_x1 [("_id", VStr "B")])) /\
    (forall k', find_one_ref self' [("_id", k')]
                = find_one_ref (DictStore [(VStr "A", doc_A_x1)]) [("_id", k')]).
Proof.
  apply (keyed_lookup_follows_the_key [(VStr "A", doc_A_x1)] (VStr "A") 0 (VStr "A"));
    reflexivity.
Defined.

(** * The announcement handlers *)

(** ** [get_active_announcements] *)

Lemma before_today_string_dated v today :
  date_like v = true ->
  before_today v today
  = Ok (match date_of v with Some d => negb (String.leb today d) | None => false end).
Proof.
  destruct v as [ | | | s | | ]; try discriminate; intros _; [reflexivity | ].
  unfold before_today, date_of. simpl.
  destruct (String.eqb s ""); [reflexivity | ]. simpl.
  unfold py_lt, String.leb. simpl. rewrite (String.compare_antisym s today).
  by destruct (String.compare today s).
Qed.

Lemma after_today_string_dated v today :
  date_like v = true ->
  after_today v today
  = Ok (match date_of v with Some d => negb (String.leb d today) | None => false end).
Proof.
  destruct v as [ | | | s | | ]; try discriminate; intros _; [reflexivity | ].
  unfold after_today, date_of. simpl.
  destruct (String.eqb s ""); [reflexivity | ]. simpl.
  unfold py_gt, String.leb. simpl.
  by destruct (String.compare s today).
Qed.

Lemma active_loop_string_dated today announcements :
  Forall string_dated announcements ->
  active_loop today announcements = Ok (List.filter (active_on today) announcements).
Proof.
  induction 1 as [ | a rest [Hexp Hstart] _ IH ]; simpl; [reflexivity | ].
  rewrite (before_today_string_dated _ today Hexp),
    (after_today_string_dated _ today Hstart), IH.
  unfold active_on. simpl.
  destruct (date_of (get a "expiration_date")) as [e | ];
    destruct (date_of (get a "start_date")) as [s | ]; simpl;
    try destruct (String.leb today e); try destruct (String.leb s today);
    reflexivity.
Qed.

(** X16. On a collection whose announcements have strings, null or nothing
    in their two date fields, [get_active_announcements] returns normally
    the announcements that are running today, in the order of the store:
    those whose expiration date, if given and not empty, is today or later,
    and whose start date, if given and not empty, is today or earlier. *)
Theorem get_active_announcements_string_dated :
  forall today self,
    Forall string_dated (store_values self) ->
    get_active_announcements today self
    = Ok (List.filter (active_on today) (store_values self)).
Proof.
  intros today self Hall. unfold get_active_announcements, find.
  rewrite find_loop_all. simpl. by apply active_loop_string_dated.
Qed.

Lemma get_active_announcements_string_dated_witness :
  get_active_announcements "2026-03-01" (ListStore [announcement_feb; announcement_mar])
  = Ok (List.filter (active_on "2026-03-01") [announcement_feb; announcement_mar]).
Proof.
  apply (get_active_announcements_string_dated "2026-03-01"
           (ListStore [announcement_feb; announcement_mar])).
  repeat constructor.
Defined.

Lemma active_loop_app today l1 l2 :
  active_loop today (l1 ++ l2)
  = (r1 <~ active_loop today l1 ;; r2 <~ active_loop today l2 ;; Ok (r1 ++ r2)%list).
Proof.
  induction l1 as [ | a l1 IH ]; simpl.
  - by destruct (active_loop today l2).
  - destruct (before_today (get a "expiration_date") today) as [[ | ] | e]; simpl;
      try reflexivity; [exact IH | ].
    destruct (after_today (get a "start_date") today) as [b | e]; simpl;
      [ | reflexivity].
    rewrite IH. destruct (active_loop today l1) as [r1 | e]; simpl; [ | reflexivity].
    destruct (active_loop today l2) as [r2 | e]; simpl; [ | reflexivity].
    by destruct b.
Qed.

(** X17. One announcement whose expiration date is a non-empty value other
    than a string (a number, [True], a list) makes
    [get_active_announcements] raise [TypeError] for every caller, when
    the announcements stored before it have well-formed dates. *)
Theorem get_active_announcements_raises_on_a_bad_date :
  forall today self before bad rest,
    store_values self = (before ++ bad :: rest)%list ->
    Forall string_dated before ->
    py_truthy (get bad "expiration_date") = true ->
    date_like (get bad "expiration_date") = false ->
    get_active_announcements today self = Raise TypeError.
Proof.
  intros today self before bad rest Hself Hbefore Ht Hbad.
  unfold get_active_announcements, find. rewrite find_loop_all. simpl.
  rewrite Hself, active_loop_app, (active_loop_string_dated _ _ Hbefore). simpl.
  unfold before_today. rewrite Ht.
  destruct (get bad "expiration_date") as [ | b | n | s | l | d ]; try discriminate;
    reflexivity.
Qed.

Lemma get_active_announcements_raises_on_a_bad_date_witness :
  get_active_announcements "2026-03-01"
    (ListStore [announcement_feb; [("expiration_date", VInt 20260315)]])
  = Raise TypeError.
Proof.
  apply (get_active_announcements_raises_on_a_bad_date _ _ [announcement_feb]
           [("expiration_date", VInt 20260315)] []); try reflexivity.
  repeat constructor.
Defined.

(** ** [update_announcement], [delete_announcement] *)

Lemma update_one_set_cases query m self :
  update_one query [("$set", VDict m)] self = (Raise TypeError, self) \/
  update_one query [("$set", VDict m)] self = (Raise KeyError, self) \/
  update_one query [("$set", VDict m)] self = (Raise AttributeError, self) \/
  exists self', update_one query [("$set", VDict m)] self = (Ok tt, self').
Proof.
  unfold update_one.
  destruct (find_one_ref self query) as [[i | ] | e].
  - destruct (store_values self !! i) as [item | ]; [ | by eauto 6].
    destruct (truthy item); [ | by eauto 6].
    rewrite update_item_set_only. by eauto 6.
  - by eauto 6.
  - destruct e; by eauto 6.
Qed.

Lemma first_index_ext {A} (p q : A -> result bool) l :
  (forall x, p x = q x) -> first_index p l = first_index q l.
Proof.
  intros H. induction l as [ | x l IH ]; simpl; [reflexivity | ].
  by rewrite H, IH.
Qed.

(** A lookup by an [_id] that is a string never raises. *)
Lemma find_one_ref_by_string_id self announcement_id :
  exists r, find_one_ref self [("_id", VStr announcement_id)] = Ok r.
Proof.
  unfold find_one_ref.
  change (dict_get [("_id", VStr announcement_id)] "_id")
    with (Some (VStr announcement_id)).
  cbv zeta. destruct self as [l | d]; [ | eexists; reflexivity].
  rewrite (first_index_ext (fun item => _matches item [("_id", VStr announcement_id)])
             (fun item => Ok (py_eq (get item "_id") (VStr announcement_id))))
    by (intros item; apply matches_single).
  change (store_values (ListStore l)) with l.
  destruct (existsb (fun item => py_eq (get item "_id") (VStr announcement_id)) l) eqn:E.
  - destruct (first_index_exists _ _ E) as [i Hi]. rewrite Hi. simpl.
    eexists; reflexivity.
  - rewrite !(first_index_not_exists _ _ E). simpl. eexists; reflexivity.
Qed.

Lemma find_one_by_string_id self announcement_id :
  exists r, find_one self [("_id", VStr announcement_id)] = Ok r.
Proof.
  unfold find_one.
  destruct (find_one_ref_by_string_id self announcement_id) as [r ->]. by eexists.
Qed.

(** X19. [update_announcement] and [delete_announcement] change the store
    only when they return normally: after a 404, a 400 or an exception the
    store is what it was. *)
Theorem failed_update_or_delete_leaves_the_store :
  forall fromisoformat announcement_id announcement self,
    (returned (fst (update_announcement fromisoformat announcement_id announcement self))
     \/ snd (update_announcement fromisoformat announcement_id announcement self) = self)
    /\ (returned (fst (delete_announcement announcement_id self))
        \/ snd (delete_announcement announcement_id self) = self).
Proof.
  intros iso id a self. split.
  - unfold update_announcement.
    destruct (find_one self [("_id", VStr id)]) as [existing | e]; [ | by right].
    destruct (missing existing); [by right | ].
    destruct (check_dates iso _ _) as [[ | ] | e]; try (by right).
    destruct (truthy (AnnouncementUpdate.to_dict_exclude_unset a)).
    + destruct (update_one_set_cases [("_id", VStr id)]
                  (AnnouncementUpdate.to_dict_exclude_unset a) self)
        as [-> | [-> | [-> | [self' ->]]]]; try (by right).
      destruct (find_one_by_string_id self' id) as [r ->]. by left.
    + destruct (find_one_by_string_id self id) as [r ->]. by left.
  - unfold delete_announcement.
    destruct (find_one self [("_id", VStr id)]) as [existing | e]; [ | by right].
    destruct (missing existing); [by right | ].
    destruct (update_one_set_cases [("_id", VStr id)] [("_deleted", VBool true)] self)
      as [-> | [-> | [-> | [self' ->]]]]; try (by right).
    by left.
Qed.

Lemma dict_get_field_ne name o rest f :
  name <> f ->
  dict_get (AnnouncementUpdate.field name o ++ rest)%list f = dict_get rest f.
Proof.
  intros Hne. destruct o as [o | ]; simpl; [ | reflexivity].
  by destruct (String.eqb_spec name f).
Qed.

Lemma dict_get_field_eq name o rest :
  dict_get (AnnouncementUpdate.field name o ++ rest)%list name =
    match o with
    | Some v => Some (AnnouncementCreate.optional v)
    | None => dict_get rest name
    end.
Proof. destruct o as [o | ]; simpl; [ | reflexivity]. by rewrite String.eqb_refl. Qed.

Lemma update_data_kept announcement f :
  kept_by_update f ->
  dict_get (AnnouncementUpdate.to_dict_exclude_unset announcement) f = None.
Proof.
  intros (Ht & Hm & Hs & He). unfold AnnouncementUpdate.to_dict_exclude_unset.
  rewrite <- (app_nil_r (AnnouncementUpdate.field "expiration_date" _)).
  by rewrite !dict_get_field_ne by (intros E; symmetry in E; contradiction).
Qed.

Lemma update_data_wf announcement :
  dict_wf (AnnouncementUpdate.to_dict_exclude_unset announcement).
Proof.
  destruct announcement as [[t | ] [m | ] [s | ] [e | ]];
    apply (bool_decide_unpack _); by vm_compute.
Qed.

Lemma check_date_optional fromisoformat (f : option (option string)) :
  check_date fromisoformat
    (match f with Some o => AnnouncementCreate.optional o | None => VNone end)
  = Ok (negb (date_rejected fromisoformat f)).
Proof.
  destruct f as [[s | ] | ]; try reflexivity.
  unfold check_date, date_rejected. simpl.
  destruct (String.eqb s ""); simpl; [reflexivity | ].
  by rewrite negb_involutive.
Qed.

Lemma check_dates_update fromisoformat announcement :
  let update_data := AnnouncementUpdate.to_dict_exclude_unset announcement in
  check_dates fromisoformat (get update_data "expiration_date")
    (get update_data "start_date")
  = Ok (negb (date_rejected fromisoformat (AnnouncementUpdate.expiration_date announcement))
        && negb (date_rejected fromisoformat (AnnouncementUpdate.start_date announcement))).
Proof.
  intros update_data.
  assert (He : get update_data "expiration_date" =
               match AnnouncementUpdate.expiration_date announcement with
               | Some o => AnnouncementCreate.optional o
               | None => VNone
               end).
  { unfold get, update_data, AnnouncementUpdate.to_dict_exclude_unset.
    rewrite !dict_get_field_ne by discriminate.
    by destruct (AnnouncementUpdate.expiration_date announcement). }
  assert (Hs : get update_data "start_date" =
               match AnnouncementUpdate.start_date announcement with
               | Some o => AnnouncementCreate.optional o
               | None => VNone
               end).
  { unfold get, update_data, AnnouncementUpdate.to_dict_exclude_unset.
    rewrite !dict_get_field_ne by discriminate.
    rewrite dict_get_field_eq.
    destruct (AnnouncementUpdate.start_date announcement); [reflexivity | ].
    by destruct (AnnouncementUpdate.expiration_date announcement). }
  unfold check_dates. rewrite He, Hs, !check_date_optional. simpl.
  by destruct (date_rejected fromisoformat
                 (AnnouncementUpdate.expiration_date announcement)).
Qed.

(** X20. The errors of [update_announcement], in the order in which the
    handler meets them: when no announcement has the given id, or an empty
    document has it, the answer is 404, whatever the dates of the request;
    otherwise, when the expiration date or the start date of the request is
    a non-empty string that [datetime.fromisoformat] rejects, the answer is
    400.  Nothing is written in either case. *)
Theorem update_announcement_errors :
  forall fromisoformat announcement_id announcement self existing,
    find_one self [("_id", VStr announcement_id)] = Ok existing ->
    (missing existing = true ->
     update_announcement fromisoformat announcement_id announcement self
     = (not_found, self)) /\
    (missing existing = false ->
     date_rejected fromisoformat (AnnouncementUpdate.expiration_date announcement) = true \/
     date_rejected fromisoformat (AnnouncementUpdate.start_date announcement) = true ->
     update_announcement fromisoformat announcement_id announcement self
     = (invalid_date, self)).
Proof.
  intros iso id a self existing Hfind. unfold update_announcement. rewrite Hfind.
  split; [by intros -> | ]. intros -> Hbad. rewrite check_dates_update.
  destruct Hbad as [-> | ->]; [reflexivity | ].
  by rewrite andb_false_r.
Qed.

Lemma update_announcement_errors_witness :
  update_announcement (fun _ => false) "A"
    {| AnnouncementUpdate.title := None; AnnouncementUpdate.message := None;
       AnnouncementUpdate.start_date := None;
       AnnouncementUpdate.expiration_date := Some (Some "tomorrow") |}
    (ListStore [doc_A_x1])
  = (invalid_date, ListStore [doc_A_x1]).
Proof.
  destruct (update_announcement_errors (fun _ => false) "A"
              {| AnnouncementUpdate.title := None; AnnouncementUpdate.message := None;
                 AnnouncementUpdate.start_date := None;
                 AnnouncementUpdate.expiration_date := Some (Some "tomorrow") |}
              (ListStore [doc_A_x1]) (Some doc_A_x1) eq_refl) as [_ H].
  apply H; [reflexivity | by left].
Defined.

Lemma store_put_same self i item :
  store_values self !! i = Some item -> store_put self i item = self.
Proof.
  destruct self as [l | d]; simpl.
  - intros H. f_equal. by apply list_insert_id.
  - intros H. f_equal. revert i H.
    induction d as [ | [k it] d IH ]; intros [ | i ] H; simpl in *; try discriminate.
    + by inversion H.
    + f_equal. by apply IH.
Qed.

(** X21. When an announcement has the given id and the dates of the
    request pass the check, [update_announcement] returns the stored
    announcement after giving each field set in the request its new value:
    the fields [_id], [created_by], [created_at] and every field other than
    the four of the request keep their values, and no other announcement
    changes. *)
Theorem update_announcement_updates_the_given_fields :
  forall fromisoformat announcement_id announcement self i item,
    find_one_ref self [("_id", VStr announcement_id)] = Ok (Some i) ->
    store_values self !! i = Some item ->
    truthy item = true ->
    date_rejected fromisoformat (AnnouncementUpdate.expiration_date announcement) = false ->
    date_rejected fromisoformat (AnnouncementUpdate.start_date announcement) = false ->
    let update_data := AnnouncementUpdate.to_dict_exclude_unset announcement in
    let item' := dict_update item update_data in
    update_announcement fromisoformat announcement_id announcement self
    = (Returned (Some item'), store_put self i item') /\
    (forall f, kept_by_update f -> dict_get item' f = dict_get item f) /\
    (forall f v, dict_get update_data f = Some v -> dict_get item' f = Some v) /\
    (forall j, j <> i ->
       store_values (store_put self i item') !! j = store_values self !! j).
Proof.
  intros iso id a self i item Hr Hi Ht He Hs update_data item'.
  assert (Hkept : forall f, kept_by_update f -> dict_get item' f = dict_get item f).
  { intros f Hf. unfold item'. rewrite dict_get_update by apply update_data_wf.
    unfold update_data. by rewrite update_data_kept. }
  split; [ | split; [exact Hkept | split]].
  - unfold update_announcement.
    rewrite (find_one_of_ref self _ i item Hr Hi). simpl. rewrite Ht. simpl.
    rewrite check_dates_update, He, Hs. simpl. fold update_data.
    destruct (truthy update_data) eqn:Hu.
    + rewrite (update_one_located self _ _ i item Hr Hi Ht), update_item_set_only.
      simpl. fold item'.
      rewrite (find_one_of_ref (store_put self i item') _ i item'); [reflexivity | | ].
      * rewrite (find_one_ref_put self _ i item); [exact Hr | exact Hi | ].
        intros key Hkey. apply Hkept.
        unfold dict_contains in Hkey. cbn [dict_get] in Hkey.
        destruct (String.eqb_spec "_id" key) as [E | _]; [ | discriminate].
        subst key. by repeat split.
      * by apply (store_values_put_lookup self i item).
    + assert (Hitem : item' = item).
      { unfold item'. by destruct update_data. }
      rewrite Hitem, (store_put_same self i item Hi).
      by rewrite (find_one_of_ref self _ i item Hr Hi).
  - intros f v Hf. unfold item'. rewrite dict_get_update by apply update_data_wf.
    by rewrite Hf.
  - intros j Hj. rewrite store_values_put. by apply list_lookup_insert_ne.
Qed.

Lemma update_announcement_updates_the_given_fields_witness :
  update_announcement (fun _ => true) "A"
    {| AnnouncementUpdate.title := Some (Some "New title");
       AnnouncementUpdate.message := None;
       AnnouncementUpdate.start_date := Some None;
       AnnouncementUpdate.expiration_date := None |}
    (ListStore [doc_A_x1])
  = (Returned (Some (dict_update doc_A_x1
                       [("title", VStr "New title"); ("start_date", VNone)])),
     store_put (ListStore [doc_A_x1]) 0
       (dict_update doc_A_x1 [("title", VStr "New title"); ("start_date", VNone)])).
Proof.
  apply (update_announcement_updates_the_given_fields (fun _ => true) "A"
           {| AnnouncementUpdate.title := Some (Some "New title");
              AnnouncementUpdate.message := None;
              AnnouncementUpdate.start_date := Some None;
              AnnouncementUpdate.expiration_date := None |}
           (ListStore [doc_A_x1]) 0%nat doc_A_x1); reflexivity.
Defined.

Lemma active_loop_elem today l : forall rs a,
  active_loop today l = Ok rs ->
  (a ∈ rs <->
   a ∈ l /\ before_today (get a "expiration_date") today = Ok false
         /\ after_today (get a "start_date") today = Ok false).
Proof.
  induction l as [ | x l IH ]; intros rs a; simpl.
  - intros H. inversion H. split; [intros Hin | intros [Hin _]];
      by apply elem_of_nil in Hin.
  - destruct (before_today (get x "expiration_date") today) as [[ | ] | e] eqn:Hb;
      simpl; try discriminate.
    + intros Hrs. rewrite (IH rs a Hrs), elem_of_cons. split; [tauto | ].
      intros [[-> | Hin] [H1 H2]]; [congruence | tauto].
    + destruct (after_today (get x "start_date") today) as [[ | ] | e] eqn:Ha;
        simpl; try discriminate.
      * destruct (active_loop today l) as [r | e]; simpl; [ | discriminate].
        intros [= <-]. rewrite (IH r a eq_refl), elem_of_cons. split; [tauto | ].
        intros [[-> | Hin] [H1 H2]]; [congruence | tauto].
      * destruct (active_loop today l) as [r | e]; simpl; [ | discriminate].
        intros [= <-]. rewrite !elem_of_cons, (IH r a eq_refl). split; [ | tauto].
        intros [-> | H]; tauto.
Qed.

Lemma active_loop_replace today l : forall i item item',
  l !! i = Some item ->
  same_dates item' item ->
  rmap length (active_loop today (<[i:=item']> l)) = rmap length (active_loop today l).
Proof.
  induction l as [ | x l IH ]; intros i item item' Hi [He Hs]; [discriminate | ].
  destruct i as [ | i ]; simpl in *.
  - inversion Hi; subst. rewrite He, Hs.
    destruct (before_today (get item "expiration_date") today) as [[ | ] | e];
      simpl; try reflexivity.
    destruct (after_today (get item "start_date") today) as [[ | ] | e];
      simpl; try reflexivity;
      destruct (active_loop today l); reflexivity.
  - specialize (IH i item item' Hi (conj He Hs)).
    destruct (before_today (get x "expiration_date") today) as [[ | ] | e];
      simpl; try reflexivity; [exact IH | ].
    destruct (after_today (get x "start_date") today) as [[ | ] | e];
      simpl; try reflexivity;
      destruct (active_loop today (<[i:=item']> l)) as [r' | e'];
      destruct (active_loop today l) as [r | e]; simpl in *;
      try discriminate; try exact IH; inversion IH; congruence.
Qed.

(** X18. [delete_announcement] removes nothing.  When an announcement has
    the given id, the handler returns its message after setting the field
    [_deleted] of that announcement to [True]: the collection has as many
    documents as before, [find_one] by the id and [get_all_announcements]
    still return the announcement, and [get_active_announcements] returns
    on every day as many announcements as before, the deleted one among
    them if it was among them. *)
Theorem delete_announcement_removes_nothing :
  forall announcement_id self i item,
    find_one_ref self [("_id", VStr announcement_id)] = Ok (Some i) ->
    store_values self !! i = Some item ->
    truthy item = true ->
    let item' := dict_set item "_deleted" (VBool true) in
    let self' := store_put self i item' in
    delete_announcement announcement_id self
    = (Returned [("message", VStr "Announcement deleted successfully")], self') /\
    count_documents self' [] = count_documents self [] /\
    find_one self' [("_id", VStr announcement_id)] = Ok (Some item') /\
    get_all_announcements self' = Ok (<[i:=item']> (store_values self)) /\
    (forall today,
        rmap length (get_active_announcements today self')
        = rmap length (get_active_announcements today self)) /\
    (forall today rs,
        get_active_announcements today self = Ok rs ->
        item ∈ rs ->
        exists rs', get_active_announcements today self' = Ok rs' /\ item' ∈ rs').
Proof.
  intros id self i item Hr Hi Ht item' self'.
  assert (Hother : forall f, f <> "_deleted" -> dict_get item' f = dict_get item f).
  { intros f Hf. unfold item'. apply dict_get_set_ne. congruence. }
  assert (Hdates : same_dates item' item).
  { split; unfold get; by rewrite Hother. }
  assert (Hvalues : store_values self' = <[i:=item']> (store_values self))
    by apply store_values_put.
  assert (Hactive : forall today,
             rmap length (get_active_announcements today self')
             = rmap length (get_active_announcements today self)).
  { intros today. unfold get_active_announcements, find.
    rewrite !find_loop_all. simpl. rewrite Hvalues.
    by apply (active_loop_replace today _ i item). }
  split; [ | split; [ | split; [ | split; [ | split; [exact Hactive | ]]]]].
  - unfold delete_announcement.
    rewrite (find_one_of_ref self _ i item Hr Hi). simpl. rewrite Ht. simpl.
    by rewrite (update_one_located self _ _ i item Hr Hi Ht), update_item_set_only.
  - unfold count_documents, find. rewrite !find_loop_all. simpl.
    by rewrite Hvalues, length_insert.
  - unfold self'. apply (find_one_of_ref _ _ i).
    + rewrite (find_one_ref_put self _ i item); [exact Hr | exact Hi | ].
      intros key Hkey. apply Hother.
      unfold dict_contains in Hkey. cbn [dict_get] in Hkey.
      destruct (String.eqb_spec "_id" key) as [E | _]; [ | discriminate].
      by subst key.
    + by apply (store_values_put_lookup self i item).
  - unfold get_all_announcements, find. by rewrite find_loop_all, Hvalues.
  - intros today rs Hrs Hin. specialize (Hactive today). rewrite Hrs in Hactive.
    destruct (get_active_announcements today self') as [rs' | e] eqn:Hrs';
      [ | discriminate].
    exists rs'. split; [reflexivity | ].
    unfold get_active_announcements, find in Hrs, Hrs'.
    rewrite find_loop_all in Hrs, Hrs'. simpl in Hrs, Hrs'.
    apply (active_loop_elem today _ rs item Hrs) in Hin as (_ & Hb & Ha).
    apply (active_loop_elem today _ rs' item' Hrs').
    destruct Hdates as [-> ->]. split; [ | by split].
    apply list_elem_of_lookup. exists i. unfold self'.
    by apply (store_values_put_lookup self i item).
Qed.

Lemma delete_announcement_removes_nothing_witness :
  delete_announcement "A" (ListStore [doc_A_x1])
  = (Returned [("message", VStr "Announcement deleted successfully")],
     store_put (ListStore [doc_A_x1]) 0 (dict_set doc_A_x1 "_deleted" (VBool true))).
Proof.
  apply (delete_announcement_removes_nothing "A" (ListStore [doc_A_x1]) 0%nat doc_A_x1);
    reflexivity.
Defined.

(** ** [create_announcement] *)

Lemma announcement_data_has_no_id announcement now :
  dict_get (dict_set (AnnouncementCreate.to_dict announcement) "created_at" (VStr now))
    "_id" = None.
Proof. reflexivity. Qed.

Lemma check_dates_create_total fromisoformat announcement :
  exists ok,
    check_dates fromisoformat
      (VStr (AnnouncementCreate.expiration_date announcement))
      (AnnouncementCreate.optional (AnnouncementCreate.start_date announcement))
    = Ok ok.
Proof.
  unfold check_dates, check_date. simpl.
  destruct (String.eqb (AnnouncementCreate.expiration_date announcement) ""); simpl.
  - destruct (AnnouncementCreate.start_date announcement) as [s | ]; simpl;
      [ | by eexists].
    destruct (String.eqb s ""); simpl; eexists; reflexivity.
  - destruct (fromisoformat (AnnouncementCreate.expiration_date announcement));
      [ | by eexists].
    destruct (AnnouncementCreate.start_date announcement) as [s | ]; simpl;
      [ | by eexists].
    destruct (String.eqb s ""); simpl; eexists; reflexivity.
Qed.

(** X22. On a keyed collection [create_announcement] stores nothing and
    never returns normally: the document that it builds has no [_id], so
    that, once the dates have passed the check, [insert_one] raises
    [KeyError]; otherwise the answer is 400. *)
Theorem create_announcement_fails_on_a_keyed_store :
  forall fromisoformat now str announcement d,
    (create_announcement fromisoformat now str announcement (DictStore d)
     = (Unhandled KeyError, DictStore d) \/
     create_announcement fromisoformat now str announcement (DictStore d)
     = (invalid_date, DictStore d)) /\
    (dates_accepted fromisoformat announcement ->
     create_announcement fromisoformat now str announcement (DictStore d)
     = (Unhandled KeyError, DictStore d)).
Proof.
  intros iso now str a d. unfold dates_accepted, create_announcement.
  destruct (check_dates_create_total iso a) as [ok ->].
  unfold insert_one. rewrite announcement_data_has_no_id.
  destruct ok; split; auto. discriminate.
Qed.

Lemma create_announcement_fails_on_a_keyed_store_witness :
  create_announcement (fun _ => true) "2026-01-01T00:00:00" (fun _ => "None")
    {| AnnouncementCreate.title := "t"; AnnouncementCreate.message := "m";
       AnnouncementCreate.start_date := None;
       AnnouncementCreate.expiration_date := "2026-03-15";
       AnnouncementCreate.created_by := "principal" |}
    (DictStore [])
  = (Unhandled KeyError, DictStore []).
Proof.
  destruct (create_announcement_fails_on_a_keyed_store (fun _ => true)
              "2026-01-01T00:00:00" (fun _ => "None")
              {| AnnouncementCreate.title := "t"; AnnouncementCreate.message := "m";
                 AnnouncementCreate.start_date := None;
                 AnnouncementCreate.expiration_date := "2026-03-15";
                 AnnouncementCreate.created_by := "principal" |} []) as [_ H].
  apply H. reflexivity.
Defined.

Lemma create_announcement_list fromisoformat now str announcement l :
  dates_accepted fromisoformat announcement ->
  create_announcement fromisoformat now str announcement (ListStore l)
  = (Returned (created_document now str announcement),
     ListStore (l ++ [created_document now str announcement])).
Proof.
  unfold dates_accepted, create_announcement. intros ->.
  unfold insert_one, get. rewrite announcement_data_has_no_id.
  unfold stored_at, store_put, created_document. f_equal. f_equal.
  rewrite insert_app_r_alt by reflexivity. by rewrite Nat.sub_diag.
Qed.

(** X23. On a list-backed collection, a request whose dates pass the check
    is stored at the end of the collection and returned, with the creation
    time and with an [_id] that is the string of [None], whatever the
    request: the document built has no [_id] when it is inserted, and the
    [_id] that the handler then writes into it is [str] of the
    [inserted_id], which is [None].  All announcements created get that
    same [_id]. *)
Theorem create_announcement_gives_every_announcement_one_id :
  forall fromisoformat now str announcement l,
    dates_accepted fromisoformat announcement ->
    exists document,
      create_announcement fromisoformat now str announcement (ListStore l)
      = (Returned document, ListStore (l ++ [document])) /\
      dict_get document "_id" = Some (VStr (str VNone)) /\
      dict_get document "created_at" = Some (VStr now) /\
      dict_get document "title"
      = Some (VStr (AnnouncementCreate.title announcement)).
Proof.
  intros iso now str a l Hok. exists (created_document now str a).
  split; [by apply create_announcement_list | by repeat split].
Qed.

Lemma create_announcement_gives_every_announcement_one_id_witness :
  exists document,
    create_announcement (fun _ => true) "2026-01-01T00:00:00" (fun _ => "None")
      {| AnnouncementCreate.title := "t"; AnnouncementCreate.message := "m";
         AnnouncementCreate.start_date := None;
         AnnouncementCreate.expiration_date := "2026-03-15";
         AnnouncementCreate.created_by := "principal" |}
      (ListStore [])
    = (Returned document, ListStore ([] ++ [document])) /\
    dict_get document "_id" = Some (VStr "None") /\
    dict_get document "created_at" = Some (VStr "2026-01-01T00:00:00") /\
    dict_get document "title" = Some (VStr "t").
Proof.
  apply (create_announcement_gives_every_announcement_one_id (fun _ => true)
           "2026-01-01T00:00:00" (fun _ => "None")).
  reflexivity.
Defined.

(** X24. So the id that [create_announcement] returns for a second
    announcement designates the first: after two creations on a
    list-backed collection that held no document with that [_id],
    [find_one] by the id returned for the second announcement returns the
    first announcement. *)
Theorem created_id_designates_the_first_announcement :
  forall fromisoformat str now1 now2 first second l,
    dates_accepted fromisoformat first ->
    dates_accepted fromisoformat second ->
    existsb (fun it => py_eq (get it "_id") (VStr (str VNone))) l = false ->
    exists doc1 doc2 self1 self2,
      create_announcement fromisoformat now1 str first (ListStore l)
      = (Returned doc1, self1) /\
      create_announcement fromisoformat now2 str second self1
      = (Returned doc2, self2) /\
      doc1 = created_document now1 str first /\
      doc2 = created_document now2 str second /\
      find_one self2 [("_id", get doc2 "_id")] = Ok (Some doc1).
Proof.
  intros iso str now1 now2 a1 a2 l H1 H2 Hfresh.
  exists (created_document now1 str a1), (created_document now2 str a2),
    (ListStore (l ++ [created_document now1 str a1])),
    (ListStore ((l ++ [created_document now1 str a1]) ++ [created_document now2 str a2])).
  split; [by apply create_announcement_list | ].
  split; [by apply create_announcement_list | ].
  split; [reflexivity | ]. split; [reflexivity | ].
  change (get (created_document now2 str a2) "_id") with (VStr (str VNone)).
  apply (find_one_of_ref _ _ (length l)).
  - unfold find_one_ref.
    change (dict_get [("_id", VStr (str VNone))] "_id") with (Some (VStr (str VNone))).
    cbv beta iota zeta.
    rewrite (first_index_app_found _ (l ++ [created_document now1 str a1]) _ (length l)).
    + reflexivity.
    + rewrite (first_index_app_none _ l) by by apply first_index_not_exists.
      simpl. change (get (created_document now1 str a1) "_id") with (VStr (str VNone)).
      simpl. rewrite String.eqb_refl. simpl. by rewrite Nat.add_0_r.
  - simpl. apply lookup_app_l_Some. by apply list_lookup_middle.
Qed.

Lemma created_id_designates_the_first_announcement_witness :
  exists doc1 doc2 self1 self2,
    create_announcement (fun _ => true) "t1" (fun _ => "None")
      {| AnnouncementCreate.title := "first"; AnnouncementCreate.message := "m";
         AnnouncementCreate.start_date := None;
         AnnouncementCreate.expiration_date := "2026-03-15";
         AnnouncementCreate.created_by := "principal" |}
      (ListStore [])
    = (Returned doc1, self1) /\
    create_announcement (fun _ => true) "t2" (fun _ => "None")
      {| AnnouncementCreate.title := "second"; AnnouncementCreate.message := "m";
         AnnouncementCreate.start_date := None;
         AnnouncementCreate.expiration_date := "2026-04-15";
         AnnouncementCreate.created_by := "principal" |}
      self1
    = (Returned doc2, self2) /\
    doc1 = created_document "t1" (fun _ => "None")
             {| AnnouncementCreate.title := "first"; AnnouncementCreate.message := "m";
                AnnouncementCreate.start_date := None;
                AnnouncementCreate.expiration_date := "2026-03-15";
                AnnouncementCreate.created_by := "principal" |} /\
    doc2 = created_document "t2" (fun _ => "None")
             {| AnnouncementCreate.title := "second"; AnnouncementCreate.message := "m";
                AnnouncementCreate.start_date := None;
                AnnouncementCreate.expiration_date := "2026-04-15";
                AnnouncementCreate.created_by := "principal" |} /\
    find_one self2 [("_id", get doc2 "_id")] = Ok (Some doc1).
Proof.
  apply (created_id_designates_the_first_announcement (fun _ => true) (fun _ => "None")
           "t1" "t2"); reflexivity.
Defined.

(** * [init_database] *)

Lemma count_documents_all self :
  count_documents self [] = Ok (length (store_values self)).
Proof. unfold count_documents, find. by rewrite find_loop_all. Qed.

Lemma seed_if_empty_skips {X} (document : X -> result dict) initial self :
  store_values self <> [] -> seed_if_empty document initial self = (Ok tt, self).
Proof.
  intros Hne. unfold seed_if_empty. rewrite count_documents_all.
  by destruct (store_values self).
Qed.

Lemma insert_one_not_empty document self res self' :
  insert_one document self = (Ok res, self') -> store_values self' <> [].
Proof.
  unfold insert_one. destruct self as [l | d].
  - intros [= _ <-]. simpl. by destruct l.
  - destruct (dict_get document "_id") as [k | ]; [ | discriminate].
    destruct (hashable k); [ | discriminate].
    intros [= _ <-]. simpl. destruct d as [ | [k' it'] d]; [discriminate | ].
    simpl. by destruct (py_eq k' k).
Qed.

Lemma seed_loop_not_empty {X} (document : X -> result dict) initial : forall self r self',
  store_values self <> [] ->
  mfor initial
    (fun x self =>
       match document x with
       | Raise e => (Raise e, self)
       | Ok doc => (insert_one doc ;;; mret tt) self
       end) self = (r, self') ->
  store_values self' <> [].
Proof.
  induction initial as [ | x rest IH ]; intros self r self' Hne; simpl.
  - by intros [= _ <-].
  - unfold mbind at 1. destruct (document x) as [doc | e]; [ | by intros [= _ <-]].
    unfold mbind at 1. destruct (insert_one doc self) as [[res | e] self1] eqn:Hins.
    + unfold mret at 1. apply IH. by apply (insert_one_not_empty doc self res).
    + intros [= _ <-]. unfold insert_one in Hins. destruct self as [l | d].
      * discriminate.
      * destruct (dict_get doc "_id") as [k | ]; [ | by inversion Hins].
        destruct (hashable k); [discriminate | by inversion Hins].
Qed.

Lemma seed_list {X} (f : X -> dict) initial : forall l,
  mfor initial
    (fun x self =>
       match Ok (f x) with
       | Raise e => (Raise e, self)
       | Ok doc => (insert_one doc ;;; mret tt) self
       end) (ListStore l)
  = (Ok tt, ListStore (l ++ (f <$> initial))).
Proof.
  induction initial as [ | x rest IH ]; intros l; simpl.
  - by rewrite app_nil_r.
  - unfold mbind at 1 2. simpl. unfold mret at 1. rewrite IH.
    by rewrite <- app_assoc.
Qed.

(** Running a block of [init_database] a second time leaves the
    collection as the first run left it, whether the first run returned or
    raised. *)
Lemma seed_if_empty_twice {X} (document : X -> result dict) initial self :
  snd (seed_if_empty document initial (snd (seed_if_empty document initial self)))
  = snd (seed_if_empty document initial self).
Proof.
  destruct (store_values self) as [ | item items ] eqn:Hvalues.
  - assert (H : seed_if_empty document initial self
                = mfor initial
                    (fun x self =>
                       match document x with
                       | Raise e => (Raise e, self)
                       | Ok doc => (insert_one doc ;;; mret tt) self
                       end) self).
    { unfold seed_if_empty. by rewrite count_documents_all, Hvalues. }
    destruct initial as [ | x rest ].
    + rewrite H. simpl. by rewrite H.
    + rewrite mfor_cons in H.
      destruct (document x) as [doc | e] eqn:Hdoc;
        [ | rewrite H; simpl; by rewrite H].
      unfold mbind at 1 in H.
      destruct (insert_one doc self) as [[res | e] self1] eqn:Hins.
      * unfold mret at 1 in H.
        destruct (mfor rest _ self1) as [r self'] eqn:Hrest.
        rewrite H. simpl.
        rewrite seed_if_empty_skips; [reflexivity | ].
        apply (seed_loop_not_empty document rest self1 r self'); [ | exact Hrest].
        by apply (insert_one_not_empty doc self res).
      * assert (Hsame : self1 = self).
        { unfold insert_one in Hins. destruct self as [l | d]; [discriminate | ].
          destruct (dict_get doc "_id") as [k | ]; [ | by inversion Hins].
          destruct (hashable k); [discriminate | by inversion Hins]. }
        subst self1. rewrite H. simpl. by rewrite H.
  - assert (H : seed_if_empty document initial self = (Ok tt, self)).
    { apply seed_if_empty_skips. by rewrite Hvalues. }
    rewrite H. simpl. by rewrite H.
Qed.

Lemma seed_activities_list initial_activities l :
  exists l',
    seed_if_empty (fun kv : string * dict => Ok (activity_document (fst kv) (snd kv)))
      initial_activities (ListStore l)
    = (Ok tt, ListStore l').
Proof.
  destruct l as [ | item l ].
  - eexists. unfold seed_if_empty. rewrite count_documents_all. simpl.
    apply (seed_list (fun kv => activity_document (fst kv) (snd kv))
             initial_activities []).
  - exists (item :: l). by apply seed_if_empty_skips.
Qed.

Lemma init_database_collections initial_activities initial_teachers
    initial_announcements db l :
  activities_collection db = ListStore l ->
  let db' :=
    snd (init_database initial_activities initial_teachers initial_announcements db) in
  activities_collection db'
  = snd (seed_if_empty
           (fun kv : string * dict => Ok (activity_document (fst kv) (snd kv)))
           initial_activities (ListStore l)) /\
  teachers_collection db'
  = snd (seed_if_empty teacher_document initial_teachers (teachers_collection db)).
Proof.
  intros Hact db'. subst db'. unfold init_database. rewrite Hact.
  destruct (seed_activities_list initial_activities l) as [l' ->].
  destruct (seed_if_empty teacher_document initial_teachers (teachers_collection db))
    as [[[] | e] t']; [ | by split].
  by destruct (seed_if_empty Ok initial_announcements (announcements_collection db)).
Qed.

(** X25. [init_database] seeds once.  Started on a list-backed activities
    collection, as the module creates it, a call of [init_database] that
    follows another leaves the activities and the teachers as the first
    call left them, whether the calls return or raise, and whatever the
    collections held before the first call. *)
Theorem init_database_is_idempotent :
  forall initial_activities initial_teachers initial_announcements db l,
    activities_collection db = ListStore l ->
    let once :=
      snd (init_database initial_activities initial_teachers initial_announcements db) in
    let twice :=
      snd (init_database initial_activities initial_teachers initial_announcements once) in
    activities_collection twice = activities_collection once /\
    teachers_collection twice = teachers_collection once.
Proof.
  intros ia it ian db l Hact once twice.
  destruct (init_database_collections ia it ian db l Hact) as [Ha Ht].
  fold once in Ha, Ht.
  destruct (seed_activities_list ia l) as [l' Hl']. rewrite Hl' in Ha. simpl in Ha.
  destruct (init_database_collections ia it ian once l' Ha) as [Ha2 Ht2].
  fold twice in Ha2, Ht2. split.
  - rewrite Ha2, Ha.
    assert (E : ListStore l'
                = snd (seed_if_empty
                         (fun kv : string * dict =>
                            Ok (activity_document (fst kv) (snd kv)))
                         ia (ListStore l))) by (by rewrite Hl').
    rewrite E. apply seed_if_empty_twice.
  - rewrite Ht2, Ht. apply seed_if_empty_twice.
Qed.

Lemma init_database_is_idempotent_witness :
  activities_collection
    (snd (init_database [("Chess Club", [("max_participants", VInt 12)])]
            [[("username", VStr "mchen")]; [("display_name", VStr "no username")]] []
            (snd (init_database [("Chess Club", [("max_participants", VInt 12)])]
            [[("username", VStr "mchen")]; [("display_name", VStr "no username")]] []
                    {| activities_collection := ListStore [];
                       teachers_collection := DictStore [];
                       announcements_collection := ListStore [] |}))))
  = ListStore [activity_document "Chess Club" [("max_participants", VInt 12)]] /\
  teachers_collection
    (snd (init_database [("Chess Club", [("max_participants", VInt 12)])]
            [[("username", VStr "mchen")]; [("display_name", VStr "no username")]] []
            (snd (init_database [("Chess Club", [("max_participants", VInt 12)])]
            [[("username", VStr "mchen")]; [("display_name", VStr "no username")]] []
                    {| activities_collection := ListStore [];
                       teachers_collection := DictStore [];
                       announcements_collection := ListStore [] |}))))
  = DictStore [(VStr "mchen", [("_id", VStr "mchen"); ("username", VStr "mchen")])].
Proof.
  destruct (init_database_is_idempotent
              [("Chess Club", [("max_participants", VInt 12)])]
              [[("username", VStr "mchen")]; [("display_name", VStr "no username")]] []
              {| activities_collection := ListStore [];
                 teachers_collection := DictStore [];
                 announcements_collection := ListStore [] |} [] eq_refl) as [Ha Ht].
  split; [rewrite Ha | rewrite Ht]; reflexivity.
Defined.

Lemma dict_get_update_other (m : dict) : forall (d : dict) k,
  dict_contains m k = false -> dict_get (dict_update d m) k = dict_get d k.
Proof.
  unfold dict_contains, dict_update.
  induction m as [ | [k' v'] m IH ]; intros d k; simpl; [reflexivity | ].
  destruct (String.eqb_spec k' k) as [-> | Hne]; [discriminate | ].
  intros Hm. rewrite IH by exact Hm. by apply dict_get_set_ne.
Qed.

Lemma activity_document_id name details :
  dict_contains details "_id" = false ->
  get (activity_document name details) "_id" = VStr name.
Proof.
  intros H. unfold get, activity_document. by rewrite dict_get_update_other.
Qed.

Lemma first_activity_by_name (initial_activities : list (string * dict)) name details :
  NoDup (fst <$> initial_activities) ->
  Forall (fun kv => dict_contains (snd kv) "_id" = false) initial_activities ->
  (name, details) ∈ initial_activities ->
  exists j,
    first_index (fun item => Ok (py_eq (get item "_id") (VStr name)))
      ((fun kv => activity_document (fst kv) (snd kv)) <$> initial_activities)
    = Ok (Some j) /\
    ((fun kv => activity_document (fst kv) (snd kv)) <$> initial_activities) !! j
    = Some (activity_document name details).
Proof.
  induction initial_activities as [ | [n0 d0] ia IH ]; intros Hnodup Hall Hin.
  - by apply elem_of_nil in Hin.
  - apply NoDup_cons in Hnodup as [Hn0 Hnodup].
    apply Forall_cons in Hall as [Hd0 Hall]. simpl in Hd0.
    cbn [fmap list_fmap first_index fst snd].
    rewrite (activity_document_id n0 d0 Hd0). cbn [py_eq rbind].
    apply elem_of_cons in Hin as [Heq | Hin].
    + inversion Heq; subst. rewrite String.eqb_refl. by exists 0%nat.
    + destruct (String.eqb_spec n0 name) as [-> | Hne].
      * exfalso. apply Hn0. by apply (list_elem_of_fmap_2 fst) in Hin.
      * destruct (IH Hnodup Hall Hin) as (j & Hj & Hl).
        exists (S j). split; [ | exact Hl].
        change (list_fmap _ _ ?f ia) with (f <$> ia). by rewrite Hj.
Qed.

(** X26. Started on the empty list-backed activities collection that the
    module creates, [init_database] stores one document per seed activity,
    in the order of the seed data, and each activity is then found by its
    name: [find_one({_id: name})] returns [{"_id": name, **details}].  (The
    names are the keys of a dictionary, hence distinct; no seed activity
    has an [_id] among its details.)  This holds also when the seeding of a
    later collection raises. *)
Theorem init_database_seeds_the_activities :
  forall initial_activities initial_teachers initial_announcements db name details,
    activities_collection db = activities_collection_0 ->
    NoDup (fst <$> initial_activities) ->
    Forall (fun kv => dict_contains (snd kv) "_id" = false) initial_activities ->
    (name, details) ∈ initial_activities ->
    let activities :=
      activities_collection
        (snd (init_database initial_activities initial_teachers initial_announcements db)) in
    store_values activities
    = (fun kv => activity_document (fst kv) (snd kv)) <$> initial_activities /\
    find_one activities [("_id", VStr name)] = Ok (Some (activity_document name details)).
Proof.
  intros ia it ian db name details Hdb Hnodup Hall Hin activities.
  assert (Hact : activities
                 = ListStore ((fun kv => activity_document (fst kv) (snd kv)) <$> ia)).
  { assert (Hseed : seed_if_empty
                        (fun kv : string * dict => Ok (activity_document (fst kv) (snd kv)))
                        ia activities_collection_0
                      = (Ok tt, ListStore ((fun kv => activity_document (fst kv) (snd kv))
                                             <$> ia))).
    { unfold seed_if_empty. rewrite count_documents_all. simpl.
      apply (seed_list (fun kv => activity_document (fst kv) (snd kv)) ia []). }
    unfold activities, init_database. rewrite Hdb, Hseed.
    destruct (seed_if_empty teacher_document it (teachers_collection db))
      as [[[] | e] t']; [ | reflexivity].
    by destruct (seed_if_empty Ok ian (announcements_collection db)). }
  rewrite Hact. split; [reflexivity | ].
  destruct (first_activity_by_name ia name details Hnodup Hall Hin) as (j & Hj & Hl).
  apply (find_one_of_ref _ _ j); [ | exact Hl].
  unfold find_one_ref.
  change (dict_get [("_id", VStr name)] "_id") with (Some (VStr name)).
  cbv beta iota zeta. by rewrite Hj.
Qed.

Lemma init_database_seeds_the_activities_witness :
  find_one
    (activities_collection
       (snd (init_database
               [("Chess Club", [("max_participants", VInt 12)]);
                ("Art Club", [("max_participants", VInt 15)])] [] []
               {| activities_collection := ListStore [];
                  teachers_collection := DictStore [];
                  announcements_collection := ListStore [] |})))
    [("_id", VStr "Art Club")]
  = Ok (Some (activity_document "Art Club" [("max_participants", VInt 15)])).
Proof.
  apply (init_database_seeds_the_activities
           [("Chess Club", [("max_participants", VInt 12)]);
            ("Art Club", [("max_participants", VInt 15)])] [] []
           {| activities_collection := ListStore [];
              teachers_collection := DictStore [];
              announcements_collection := ListStore [] |}
           "Art Club" [("max_participants", VInt 15)]).
  - reflexivity.
  - apply (bool_decide_unpack _). by vm_compute.
  - repeat constructor.
  - apply elem_of_cons. right. apply elem_of_cons. by left.
Defined.

(** * Keyed stores, continued *)

Lemma py_eq_hashable_l a b :
  py_eq a b = true -> hashable b = true -> hashable a = true.
Proof. destruct a, b; simpl; congruence. Qed.

Lemma py_eq_sym_hashable a b :
  hashable b = true -> py_eq a b = true -> py_eq b a = true.
Proof.
  intros Hb Hab. pose proof (py_eq_hashable_l a b Hab Hb) as Ha.
  destruct (py_eq b a) eqn:E; [reflexivity | ].
  rewrite (py_eq_sym_false b a Hb Ha E) in Hab. discriminate.
Qed.

Lemma kd_set_frame d k item k' :
  hashable k = true -> hashable k' = true -> py_eq k k' = false ->
  (i ← kd_index (kd_set d k item) k'; (snd <$> kd_set d k item) !! i)
  = (i ← kd_index d k'; (snd <$> d) !! i).
Proof.
  intros Hk Hk' Hne. induction d as [ | [k0 it0] d IH ]; simpl.
  - by rewrite Hne.
  - destruct (py_eq k0 k) eqn:E0; simpl.
    + destruct (py_eq k0 k') eqn:E1; [ | by destruct (kd_index d k')].
      exfalso.
      pose proof (py_eq_sym_hashable k0 k Hk E0) as Hkk0.
      rewrite (py_eq_chain k k0 k' Hk Hkk0 E1) in Hne. discriminate.
    + destruct (py_eq k0 k'); [reflexivity | ].
      destruct (kd_index (kd_set d k item) k') as [i | ];
        destruct (kd_index d k') as [j | ]; simpl in *; exact IH.
Qed.

Lemma insert_one_keyed_frame d document k k' :
  dict_get document "_id" = Some k ->
  hashable k = true -> hashable k' = true -> py_eq k k' = false ->
  insert_one document (DictStore d)
  = (Ok {| inserted_id := k |}, DictStore (kd_set d k document)) /\
  find_one (DictStore (kd_set d k document)) [("_id", k')]
  = find_one (DictStore d) [("_id", k')].
Proof.
  intros Hid Hk Hk' Hne. split.
  - unfold insert_one, get. by rewrite Hid, Hk.
  - rewrite !find_one_by_id_keyed by assumption. f_equal. by apply kd_set_frame.
Qed.

(** X27. On a keyed store, inserting a document leaves every lookup by
    another [_id] as it was: [find_one({_id: k'})] returns after the
    insert what it returned before, for every hashable [k'] that differs
    from the [_id] of the inserted document. *)
Theorem keyed_insert_leaves_other_ids :
  forall d document k k',
    dict_get document "_id" = Some k ->
    hashable k = true ->
    hashable k' = true ->
    py_eq k k' = false ->
    find_one (snd (insert_one document (DictStore d))) [("_id", k')]
    = find_one (DictStore d) [("_id", k')].
Proof.
  intros d document k k' Hid Hk Hk' Hne.
  destruct (insert_one_keyed_frame d document k k' Hid Hk Hk' Hne) as [-> H].
  exact H.
Qed.

Lemma keyed_insert_leaves_other_ids_witness :
  find_one (snd (insert_one [("_id", VStr "B")] (DictStore [(VStr "A", doc_A_x1)])))
    [("_id", VStr "A")]
  = find_one (DictStore [(VStr "A", doc_A_x1)]) [("_id", VStr "A")].
Proof.
  apply (keyed_insert_leaves_other_ids _ _ (VStr "B") (VStr "A")); reflexivity.
Defined.

Lemma has_id_inv document :
  has_id document ->
  exists k, dict_get document "_id" = Some k /\ hashable k = true.
Proof.
  unfold has_id, insertable. destruct (dict_get document "_id") as [k | ];
    [ | discriminate].
  intros H. by exists k.
Qed.

Lemma insert_many_keyed_frame documents : forall d k',
  Forall has_id documents ->
  Forall (fun doc => py_eq (get doc "_id") k' = false) documents ->
  hashable k' = true ->
  exists d',
    insert_many documents (DictStore d) = (Ok tt, DictStore d') /\
    find_one (DictStore d') [("_id", k')] = find_one (DictStore d) [("_id", k')].
Proof.
  unfold insert_many.
  induction documents as [ | doc rest IH ]; intros d k' Hids Hne Hk'; simpl.
  - by exists d.
  - apply Forall_cons in Hids as [Hid Hids]. apply Forall_cons in Hne as [Hne0 Hne].
    destruct (has_id_inv doc Hid) as (k & Hk & Hh).
    unfold get in Hne0. rewrite Hk in Hne0.
    destruct (insert_one_keyed_frame d doc k k' Hk Hh Hk' Hne0) as [Hins Hframe].
    destruct (IH (kd_set d k doc) k' Hids Hne Hk') as (d' & Hrun & Hfind).
    exists d'. unfold mbind at 1 2. rewrite Hins. unfold mret at 1.
    split; [exact Hrun | ]. by rewrite Hfind.
Qed.

Lemma insert_many_keyed_total documents : forall d,
  Forall has_id documents ->
  exists d', insert_many documents (DictStore d) = (Ok tt, DictStore d').
Proof.
  unfold insert_many.
  induction documents as [ | doc rest IH ]; intros d Hids; simpl.
  - by exists d.
  - apply Forall_cons in Hids as [Hid Hids].
    destruct (has_id_inv doc Hid) as (k & Hk & Hh).
    destruct (IH (kd_set d k doc) Hids) as [d' Hrun].
    exists d'. unfold mbind at 1 2. unfold insert_one at 1. rewrite Hk, Hh.
    unfold mret at 1. exact Hrun.
Qed.

Lemma insert_many_keyed_lookup documents : forall d target,
  Forall has_id documents ->
  ids_distinct documents ->
  target ∈ documents ->
  exists d',
    insert_many documents (DictStore d) = (Ok tt, DictStore d') /\
    find_one (DictStore d') [("_id", get target "_id")] = Ok (Some target).
Proof.
  induction documents as [ | doc rest IH ]; intros d target Hids Hdist Hin.
  - by apply elem_of_nil in Hin.
  - apply Forall_cons in Hids as [Hid Hids]. destruct Hdist as [Hlater Hdist].
    destruct (has_id_inv doc Hid) as (k & Hk & Hh).
    assert (Hstep : forall d',
               insert_many rest (DictStore (kd_set d k doc)) = (Ok tt, DictStore d') ->
               insert_many (doc :: rest) (DictStore d) = (Ok tt, DictStore d')).
    { intros d' Hrun. unfold insert_many in *. simpl. unfold mbind at 1 2.
      unfold insert_one at 1. rewrite Hk, Hh. unfold mret at 1. exact Hrun. }
    apply elem_of_cons in Hin as [-> | Hin].
    + assert (Hget : get doc "_id" = k) by (unfold get; by rewrite Hk).
      rewrite Hget in *.
      destruct (insert_many_keyed_frame rest (kd_set d k doc) k Hids Hlater Hh)
        as (d' & Hrun & Hfind).
      exists d'. split; [by apply Hstep | ]. rewrite Hfind.
      rewrite find_one_by_id_keyed by exact Hh.
      destruct (kd_set_lookup d k doc (py_eq_refl_hashable k Hh)) as (j & Hj & Hl).
      rewrite Hj. simpl. by rewrite Hl.
    + destruct (IH (kd_set d k doc) target Hids Hdist Hin) as (d' & Hrun & Hfind).
      exists d'. split; [by apply Hstep | exact Hfind].
Qed.

(** X28. On a keyed store, [insert_many] of documents that have hashable
    and pairwise different [_id]s returns normally, and each of the
    documents is then the one that [find_one] returns for its [_id]. *)
Theorem keyed_insert_many_then_find_one :
  forall documents d target,
    Forall has_id documents ->
    ids_distinct documents ->
    target ∈ documents ->
    exists self',
      insert_many documents (DictStore d) = (Ok tt, self') /\
      find_one self' [("_id", get target "_id")] = Ok (Some target).
Proof.
  intros documents d target Hids Hdist Hin.
  destruct (insert_many_keyed_lookup documents d target Hids Hdist Hin)
    as (d' & Hrun & Hfind).
  by exists (DictStore d').
Qed.

Lemma keyed_insert_many_then_find_one_witness :
  exists self',
    insert_many [doc_A_x1; [("_id", VStr "B")]] (DictStore []) = (Ok tt, self') /\
    find_one self' [("_id", get doc_A_x1 "_id")] = Ok (Some doc_A_x1).
Proof.
  apply (keyed_insert_many_then_find_one [doc_A_x1; [("_id", VStr "B")]] [] doc_A_x1).
  - repeat constructor.
  - simpl. repeat constructor.
  - apply elem_of_cons. by left.
Defined.

Lemma seed_as_insert_many {X} (document : X -> result dict) (f : X -> dict) initial :
  Forall (fun x => document x = Ok (f x)) initial ->
  forall self,
    mfor initial
      (fun x self =>
         match document x with
         | Raise e => (Raise e, self)
         | Ok doc => (insert_one doc ;;; mret tt) self
         end) self
    = insert_many (f <$> initial) self.
Proof.
  unfold insert_many.
  induction 1 as [ | x rest Hx _ IH ]; intros self; [reflexivity | ].
  cbn [fmap list_fmap]. rewrite !mfor_cons, Hx.
  destruct ((insert_one (f x) ;;; mret tt) self) as [[[] | e] self1];
    [apply IH | reflexivity].
Qed.

Lemma teacher_entry_spec teacher :
  seed_teacher teacher ->
  teacher_document teacher = Ok (teacher_entry teacher) /\
  get (teacher_entry teacher) "_id" = get teacher "username" /\
  has_id (teacher_entry teacher).
Proof.
  intros [(u & Hu & Hh) Hid].
  assert (Hget : dict_get (teacher_entry teacher) "_id" = Some u).
  { unfold teacher_entry, get. rewrite Hu. by rewrite dict_get_update_other. }
  split; [ | split].
  - unfold teacher_document, teacher_entry, get. by rewrite Hu.
  - unfold get at 1 2. by rewrite Hget, Hu.
  - unfold has_id, insertable. by rewrite Hget.
Qed.

Lemma teacher_entries_distinct teachers :
  Forall seed_teacher teachers ->
  distinct_on "username" teachers ->
  ids_distinct (teacher_entry <$> teachers).
Proof.
  unfold ids_distinct.
  induction 1 as [ | t rest Ht Hrest IH ]; simpl; [done | ].
  intros [Hlater Hdist]. split; [ | by apply IH].
  apply Forall_fmap. destruct (teacher_entry_spec t Ht) as (_ & -> & _).
  clear -Hlater Hrest. induction Hrest as [ | t' rest Ht' _ IH ]; [constructor | ].
  apply Forall_cons in Hlater as [H1 H2]. constructor; [ | by apply IH].
  simpl. by destruct (teacher_entry_spec t' Ht') as (_ & -> & _).
Qed.

(** X29. Started on the two empty collections that the module creates,
    [init_database] files every seed teacher under its username, and each
    teacher is then found by it: [find_one({_id: username})] returns
    [{"_id": username, **teacher}].  (The seed teachers have hashable and
    pairwise different usernames and no [_id] of their own.) *)
Theorem init_database_seeds_the_teachers :
  forall initial_activities initial_teachers initial_announcements db teacher,
    activities_collection db = activities_collection_0 ->
    teachers_collection db = teachers_collection_0 ->
    Forall seed_teacher initial_teachers ->
    distinct_on "username" initial_teachers ->
    teacher ∈ initial_teachers ->
    find_one
      (teachers_collection
         (snd (init_database initial_activities initial_teachers initial_announcements db)))
      [("_id", get teacher "username")]
    = Ok (Some (teacher_entry teacher)).
Proof.
  intros ia it ian db teacher Hact Hteach Hseed Hdist Hin.
  assert (Ha : exists activities,
             seed_if_empty
               (fun kv : string * dict => Ok (activity_document (fst kv) (snd kv)))
               ia activities_collection_0 = (Ok tt, activities)).
  { eexists. unfold seed_if_empty. rewrite count_documents_all. simpl.
    apply (seed_list (fun kv => activity_document (fst kv) (snd kv)) ia []). }
  destruct Ha as [activities Ha].
  assert (Hentries : Forall has_id (teacher_entry <$> it)).
  { apply Forall_fmap. eapply Forall_impl; [exact Hseed | ].
    intros t Ht. by destruct (teacher_entry_spec t Ht) as (_ & _ & H). }
  destruct (insert_many_keyed_lookup (teacher_entry <$> it) [] (teacher_entry teacher)
              Hentries (teacher_entries_distinct it Hseed Hdist))
    as (d' & Hrun & Hfind).
  { by apply list_elem_of_fmap_2. }
  assert (Ht : seed_if_empty teacher_document it teachers_collection_0
               = (Ok tt, DictStore d')).
  { unfold seed_if_empty. rewrite count_documents_all. simpl.
    rewrite (seed_as_insert_many teacher_document teacher_entry it); [exact Hrun | ].
    eapply Forall_impl; [exact Hseed | ].
    intros t Hsd. by destruct (teacher_entry_spec t Hsd) as (H & _). }
  unfold init_database. rewrite Hact, Hteach, Ha, Ht.
  destruct (seed_if_empty Ok ian (announcements_collection db)) as [r n']. simpl.
  rewrite <- Hfind. f_equal. f_equal.
  assert (Hs : seed_teacher teacher).
  { by apply (proj1 (Forall_forall _ _) Hseed). }
  by destruct (teacher_entry_spec teacher Hs) as (_ & -> & _).
Qed.

Lemma init_database_seeds_the_teachers_witness :
  find_one
    (teachers_collection
       (snd (init_database [] [[("username", VStr "mchen"); ("role", VStr "teacher")]] []
               {| activities_collection := ListStore [];
                  teachers_collection := DictStore [];
                  announcements_collection := ListStore [] |})))
    [("_id", get [("username", VStr "mchen"); ("role", VStr "teacher")] "username")]
  = Ok (Some (teacher_entry [("username", VStr "mchen"); ("role", VStr "teacher")])).
Proof.
  apply (init_database_seeds_the_teachers [] _ []); try reflexivity.
  - repeat constructor. by exists (VStr "mchen").
  - simpl. repeat constructor.
  - apply elem_of_cons. by left.
Defined.
